(** * The INSPIRE authority-id synchronizer (bst_inspire_authority_ids_synchronizer.py)

    A shallow embedding of the tasklet and the properties of its five stages:
    the dump fetcher ([get_inspire_dump]), the dump parser
    ([parse_inspire_xml]), the candidate selector ([get_ccid]), the
    reconciler and emitter ([synchronize]) and the orchestrator
    ([bst_inspire_authority_ids_synchronizer]).

    Python byte strings are [string]; the [dict] built by the parser is a
    [gmap string string]; record ids are [Z]; [None] is [option]'s [None].
    Calls that leave the module (urllib, gzip, os, lxml's parser, the Invenio
    search engine and task queue) are the fields of the [Collaborators]
    interface, run in a state-and-exception monad that also records every
    call with its outcome. *)

From stdpp Require Import gmap strings list fin_maps pretty.
From Stdlib Require Import ZArith Lia.

Local Open Scope string_scope.
Local Open Scope list_scope.
Local Open Scope Z_scope.

(** ** Python string primitives *)

Module PyStr.

(** [s.startswith(p)] *)
Fixpoint startswith (s p : string) {struct p} : bool :=
  match p with
  | EmptyString => true
  | String a p' =>
      match s with
      | EmptyString => false
      | String b s' => if decide (a = b) then startswith s' p' else false
      end
  end.

(** [s[n:]] *)
Fixpoint drop (n : nat) (s : string) : string :=
  match n with
  | O => s
  | S n' => match s with EmptyString => EmptyString | String _ s' => drop n' s' end
  end.

(** The first occurrence of [sep] in [s]: what is before it and what is
    after it. *)
Fixpoint split_first (sep s : string) : option (string * string) :=
  if startswith s sep then Some (EmptyString, drop (String.length sep) s)
  else match s with
       | EmptyString => None
       | String c s' =>
           match split_first sep s' with
           | Some (before, after) => Some (String c before, after)
           | None => None
           end
       end.

(** [s.partition(sep)] for a non-empty [sep]: the 3-tuple
    (head, separator, tail), or [(s, "", "")] when [sep] does not occur. *)
Definition partition (s sep : string) : string * string * string :=
  match split_first sep s with
  | Some (before, after) => (before, sep, after)
  | None => (s, EmptyString, EmptyString)
  end.

(** [s.endswith(p)] for a one-character [p]: the last character of [s]. *)
Fixpoint endswith (s p : string) : bool :=
  match s with
  | EmptyString => false
  | String c EmptyString => bool_decide (p = String c EmptyString)
  | String _ s' => endswith s' p
  end.

(** Truth value of a string or [None]: [None] and the empty string are
    false. *)
Definition truthy (v : option string) : bool :=
  match v with
  | Some (String _ _) => true
  | _ => false
  end.

(** ["{0}".format(v)] for a value that is a string or [None]. *)
Definition format_opt (v : option string) : string :=
  match v with
  | Some s => s
  | None => "None"
  end.

(** ["{0}".format(n)] for an int. *)
Definition format_int (n : Z) : string := pretty n.

End PyStr.

(** ** Candidate selector: the scan of [get_ccid] (lines 196-204) *)

Definition INSPIRE_MARKER : string := "AUTHOR|(INSPIRE)".
Definition CCID_MARKER : string := "AUTHOR|(SzGeCERN)".

(** The [for] loop of [get_ccid] over the values of field 035__a, with the
    loop variable [cern_id] as accumulator; [break] ends the recursion and
    leaves [cern_id] as it is. *)
Fixpoint get_ccid_loop (cern_id : option string) (control_numbers : list string)
  : option string :=
  match control_numbers with
  | [] => cern_id
  | control_number :: rest =>
      if PyStr.startswith control_number INSPIRE_MARKER then
        cern_id
      else if PyStr.startswith control_number CCID_MARKER then
        let '(_, _, tail) := PyStr.partition control_number CCID_MARKER in
        get_ccid_loop (Some tail) rest
      else
        get_ccid_loop cern_id rest
  end.

(** [get_ccid] once the field values have been read. *)
Definition get_ccid_of_values (control_numbers : list string) : option string :=
  get_ccid_loop None control_numbers.

(** The values in which the scan finds no INSPIRE marker. *)
Definition no_inspire_marker (values : list string) : Prop :=
  Forall (λ v, PyStr.startswith v INSPIRE_MARKER = false) values.

(** The values in which the scan finds no CCID marker. *)
Definition no_ccid_marker (values : list string) : Prop :=
  Forall (λ v, PyStr.startswith v CCID_MARKER = false) values.

(** ** The parsed dump: lxml's element tree *)

(** A node of the tree [etree.fromstring] returns. An element has its tag,
    its attributes, [.text] (the text before its first child), its children
    and [.tail] (the text after its end tag); comments and processing
    instructions are children too, with no tag a path step can match. *)
#[local] Set Warnings "-register-all".
Inductive node : Type :=
| Element (tag : string) (attrib : list (string * string))
          (text : option string) (children : list node) (tail : option string)
| Comment (text : option string) (tail : option string).

Module Etree.

Definition children (n : node) : list node :=
  match n with
  | Element _ _ _ cs _ => cs
  | Comment _ _ => []
  end.

Definition text (n : node) : option string :=
  match n with
  | Element _ _ t _ _ => t
  | Comment t _ => t
  end.

Definition tail (n : node) : option string :=
  match n with
  | Element _ _ _ _ t => t
  | Comment _ t => t
  end.

(** The name test of a path step: an element of that tag. *)
Definition has_tag (name : string) (n : node) : bool :=
  match n with
  | Element t _ _ _ _ => bool_decide (t = name)
  | Comment _ _ => false
  end.

(** [n.get(name)] *)
Definition get (name : string) (n : node) : option string :=
  match n with
  | Element _ attrib _ _ _ =>
      snd <$> head (filter (λ kv, bool_decide (kv.1 = name)) attrib)
  | Comment _ _ => None
  end.

(** The predicate [[@name='value']]. *)
Definition attr_is (name value : string) (n : node) : bool :=
  bool_decide (get name n = Some value).

(** The text nodes that are children of [n], in document order: its
    [.text] and the [.tail] of each of its children. *)
Definition text_nodes (n : node) : list string :=
  match n with
  | Element _ _ t cs _ => option_list t ++ omap tail cs
  | Comment _ _ => []
  end.

(** [record.xpath("datafield[@tag='035']")] *)
Definition xpath_datafield_035 (record : node) : list node :=
  filter (λ c, has_tag "datafield" c && attr_is "tag" "035" c) (children record).

(** [datafield.xpath("subfield[@code='9' and text()='value']")]: the
    comparison holds when one of the text nodes equals [value]. *)
Definition xpath_subfield_9 (value : string) (datafield : node) : list node :=
  filter (λ c, has_tag "subfield" c && attr_is "code" "9" c
               && bool_decide (value ∈ text_nodes c))
         (children datafield).

(** [datafield.find("subfield[@code='a']")]: the first match or [None]. *)
Definition find_subfield_a (datafield : node) : option node :=
  head (filter (λ c, has_tag "subfield" c && attr_is "code" "a" c)
               (children datafield)).

(** Truth value of a list. *)
Definition nonempty {A} (l : list A) : bool :=
  match l with [] => false | _ :: _ => true end.

End Etree.

(** ** Dump parser: the traversal of [parse_inspire_xml] (lines 140-161) *)

(** One pass of the inner loop (lines 147-156) on the loop variables
    [(inspire_id, cern_id)]. A tagged datafield without an [a] subfield makes
    [find] return [None], whose [.text] raises the [AttributeError] that is
    passed over: the variables stay as they were. *)
Definition scan_datafield (ids : option string * option string) (datafield : node)
  : option string * option string :=
  let '(inspire_id, cern_id) := ids in
  if Etree.nonempty (Etree.xpath_subfield_9 "INSPIRE" datafield) then
    match Etree.find_subfield_a datafield with
    | Some subfield => (Etree.text subfield, cern_id)
    | None => (inspire_id, cern_id)
    end
  else if Etree.nonempty (Etree.xpath_subfield_9 "CERN" datafield) then
    match Etree.find_subfield_a datafield with
    | Some subfield => (inspire_id, Etree.text subfield)
    | None => (inspire_id, cern_id)
    end
  else (inspire_id, cern_id).

(** The inner loop (lines 143-156): both variables start as [None]. *)
Definition scan_record (record : node) : option string * option string :=
  fold_left scan_datafield (Etree.xpath_datafield_035 record) (None, None).

(** One pass of the outer loop (lines 142-159): the entry is written only
    when both ids are true values, that is non-empty strings. *)
Definition add_record (authority_ids : gmap string string) (record : node)
  : gmap string string :=
  match scan_record record with
  | (Some inspire_id, Some cern_id) =>
      if PyStr.truthy (Some inspire_id) && PyStr.truthy (Some cern_id)
      then <[cern_id := inspire_id]> authority_ids
      else authority_ids
  | _ => authority_ids
  end.

(** Lines 140-161: the dictionary built from the children of the root. *)
Definition collect_authority_ids (root : node) : gmap string string :=
  fold_left add_record (Etree.children root) ∅.

(** ** Exceptions, calls and the monad of the tasklet *)

(** The exception classes the module names in its handlers; every other
    class is [OtherError]. A subclass is filed under the class that catches
    it. *)
Inductive exn : Type :=
| IOError (msg : string)
| OSError (msg : string)
| ValueError (msg : string)
| XMLSyntaxError (msg : string)
| OtherError (cls msg : string).

(** [str(e)] *)
Definition exn_str (e : exn) : string :=
  match e with
  | IOError m | OSError m | ValueError m | XMLSyntaxError m | OtherError _ m => m
  end.

Definition is_IOError (e : exn) : bool :=
  match e with IOError _ => true | _ => false end.

Definition is_OSError (e : exn) : bool :=
  match e with OSError _ => true | _ => false end.

(** [EnvironmentError] is the base class of [IOError] and [OSError]. *)
Definition is_EnvironmentError (e : exn) : bool :=
  is_IOError e || is_OSError e.

(** What [etree.fromstring] raises and line 134 catches. *)
Definition is_parse_error (e : exn) : bool :=
  match e with ValueError _ | XMLSyntaxError _ => true | _ => false end.

(** The outcome of a call: a value or a raised exception. *)
Inductive result (A : Type) : Type :=
| Ret (a : A)
| Raise (e : exn).
Arguments Ret {A} a.
Arguments Raise {A} e.

(** The [stream] argument of [write_message]: left out, or [sys.stderr]. *)
Inductive stream : Type := NoStream | Stderr.

(** A call that leaves the module, with its arguments and its outcome. *)
Inductive event : Type :=
| Urlretrieve (src dest : string) (r : result unit)
| GzipOpen (path : string) (r : result unit)
| GzipRead (path : string) (r : result string)
| GzipClose (path : string) (r : result unit)
| OsRemove (path : string) (r : result unit)
| PerformRequestSearch (cc : string) (ids : list Z)
| GetFieldvalues (recid : Z) (tag : string) (values : list string)
| FileOpen (path : string) (r : result unit)
| FileWrite (path content : string) (r : result unit)
| FileClose (path : string) (r : result unit)
| TaskSubmit (args : list string) (r : result Z)
| WriteMessage (msg : string) (to : stream).

(** The collaborators of the tasklet: the network, the local file system,
    lxml's parser, the record store of the search engine and the task queue,
    over a world [W] they read and change. [xml_parse] is the parse of a
    non-empty document: the root of its tree, or the message of the syntax
    error. The two queries of the record store are taken to answer (the
    module has no handler around them). *)
Class Collaborators (W : Type) : Type := {
  urlretrieve : string → string → W → result unit * W;
  gzip_open : string → W → result unit * W;
  gzip_read : string → W → result string * W;
  gzip_close : string → W → result unit * W;
  os_remove : string → W → result unit * W;
  xml_parse : string → node + string;
  perform_request_search : string → W → list Z * W;
  get_fieldvalues : Z → string → W → list string * W;
  file_open : string → W → result unit * W;
  file_write : string → string → W → result unit * W;
  file_close : string → W → result unit * W;
  task_low_level_submission : list string → W → result Z * W
}.

(** The state of a run: the world and the calls made so far, oldest first. *)
Definition state (W : Type) : Type := W * list event.

(** A computation of the tasklet. *)
Definition M (W A : Type) : Type := state W → result A * state W.

Definition retM {W A} (a : A) : M W A := λ s, (Ret a, s).

Definition raiseM {W A} (e : exn) : M W A := λ s, (Raise e, s).

Definition bindM {W A B} (m : M W A) (k : A → M W B) : M W B :=
  λ s, match m s with
       | (Ret a, s') => k a s'
       | (Raise e, s') => (Raise e, s')
       end.

(** Runs [m] and hands its outcome over as a value: the [try] of a
    [try]/[except]. *)
Definition attempt {W A} (m : M W A) : M W (result A) :=
  λ s, let '(r, s') := m s in (Ret r, s').

(** A call of a collaborator that may raise, recorded with its outcome. *)
Definition call {W A} (f : W → result A * W) (ev : result A → event) : M W A :=
  λ s, let '(r, w') := f s.1 in (r, (w', s.2 ++ [ev r])).

(** A call of a collaborator that answers, recorded with its answer. *)
Definition query {W A} (f : W → A * W) (ev : A → event) : M W A :=
  λ s, let '(a, w') := f s.1 in (Ret a, (w', s.2 ++ [ev a])).

(** [write_message] (lines 37-39 replace Invenio's by a [print]). *)
Definition write_message {W} (msg : string) (to : stream) : M W unit :=
  λ s, (Ret tt, (s.1, s.2 ++ [WriteMessage msg to])).

(** stdpp's monad notations: [x ← m; k] and [m;; k]. *)
#[global] Instance M_ret {W} : MRet (M W) := @retM W.
#[global] Instance M_bind {W} : MBind (M W) := λ A B k m, bindM m k.


(** ** Module constants (lines 29-33) *)

Definition SYNC_URL_INSPIRE_RECORDS_SRC : string :=
  "http://inspirehep.net/dumps/HepNames-records.xml.gz".
Definition SYNC_LOCAL_INSPIRE_RECORDS_FILE_NAME : string := "HepNames-records.xml.gz".
Definition SYNC_LOCAL_CDS_RECORDS_UPDATES_FILE_NAME : string := "cds-records-updates.xml".

(** The double quote character of the record template. *)
Definition DQ : string := String (Ascii.ascii_of_nat 34) EmptyString.

(** The template [record] of lines 232-237 applied to its two arguments. *)
Definition record_format (record_id : Z) (inspire_id : string) : string :=
  "<record>"
  +:+ "<controlfield tag=" +:+ DQ +:+ "001" +:+ DQ +:+ ">"
  +:+ PyStr.format_int record_id +:+ "</controlfield>"
  +:+ "<datafield tag=" +:+ DQ +:+ "035" +:+ DQ
  +:+ " ind1=" +:+ DQ +:+ " " +:+ DQ +:+ " ind2=" +:+ DQ +:+ " " +:+ DQ +:+ ">"
  +:+ "<subfield code=" +:+ DQ +:+ "a" +:+ DQ +:+ ">AUTHOR|(INSPIRE)"
  +:+ inspire_id +:+ "</subfield>"
  +:+ "</datafield>"
  +:+ "</record>".

(** [os.path.join(a, b)] on a POSIX system. *)
Definition os_path_join (a b : string) : string :=
  if PyStr.startswith b "/" then b
  else if bool_decide (a = "") || PyStr.endswith a "/" then a +:+ b
  else a +:+ "/" +:+ b.

(** ** Candidates and updates *)

(** The lookup of line 246 for one candidate: the update it yields, if any. *)
Definition lookup_candidate (authority_ids : gmap string string)
    (candidate : Z * option string) : option (Z * string) :=
  pair candidate.1 <$> authority_ids !! ("CERN-" +:+ PyStr.format_opt candidate.2).

(** The updates of a run: the candidates whose lookup succeeds, each with
    the INSPIRE id found. *)
Definition matched_updates (authority_ids : gmap string string)
    (candidates : list (Z * option string)) : list (Z * string) :=
  omap (lookup_candidate authority_ids) candidates.

(** The candidates of a record store that answers as [values] says. *)
Definition candidates_of (values : Z → list string) (record_ids : list Z)
  : list (Z * option string) :=
  map (λ record_id, (record_id, get_ccid_of_values (values record_id))) record_ids.

(** ** The tasklet *)

Section Tasklet.
Context {W : Type} `{!Collaborators W}.

(** [etree.fromstring]: [None] is refused with a [ValueError], the empty
    string and every document that is not well formed with an
    [XMLSyntaxError] (tests.py, lines 72-88, fixes these three outcomes). *)
Definition etree_fromstring (xml_content : option string) : result node :=
  match xml_content with
  | None => Raise (ValueError "can only parse strings")
  | Some EmptyString => Raise (XMLSyntaxError "Document is empty")
  | Some s =>
      match xml_parse s with
      | inl root => Ret root
      | inr msg => Raise (XMLSyntaxError msg)
      end
  end.

(** [get_record_ids] (lines 42-44) *)
Definition get_record_ids : M W (list Z) :=
  query (perform_request_search "CERN People") (PerformRequestSearch "CERN People").

(** Lines 75-83 of [get_inspire_dump]: the [try] that opens, reads and
    closes the copy. The handler leaves [xml_file_content] as the body
    left it. *)
Definition read_copy (dest_gz_tmp : string) : M W (option string) :=
  let failed (e : exn) (xml_file_content : option string) : M W (option string) :=
    if is_IOError e then
      write_message ("Error: failed to unzip '" +:+ dest_gz_tmp +:+ "'. ("
                     +:+ exn_str e +:+ ")") Stderr;;
      mret xml_file_content
    else raiseM e in
  opened ← attempt (call (gzip_open dest_gz_tmp) (GzipOpen dest_gz_tmp));
  match opened with
  | Raise e => failed e None
  | Ret _ =>
      content ← attempt (call (gzip_read dest_gz_tmp) (GzipRead dest_gz_tmp));
      match content with
      | Raise e => failed e None
      | Ret xml_file_content =>
          closed ← attempt (call (gzip_close dest_gz_tmp) (GzipClose dest_gz_tmp));
          match closed with
          | Raise e => failed e (Some xml_file_content)
          | Ret _ => mret (Some xml_file_content)
          end
      end
  end.

(** Lines 85-92 of [get_inspire_dump]: the [try] that removes the copy. *)
Definition remove_copy (dest_gz_tmp : string) : M W unit :=
  removed ← attempt (call (os_remove dest_gz_tmp) (OsRemove dest_gz_tmp));
  match removed with
  | Raise e =>
      if is_OSError e then
        write_message ("Error: failed to remove '" +:+ dest_gz_tmp
                       +:+ "' from disk. (" +:+ exn_str e +:+ ")") Stderr
      else raiseM e
  | Ret _ => mret tt
  end.

(** [get_inspire_dump] (lines 63-94) *)
Definition get_inspire_dump (src dest_gz_tmp : string) : M W (option string) :=
  copied ← attempt (call (urlretrieve src dest_gz_tmp) (Urlretrieve src dest_gz_tmp));
  match copied with
  | Raise e =>
      if is_IOError e then
        write_message ("Error: failed to copy '" +:+ src +:+ "' to '"
                       +:+ dest_gz_tmp +:+ "'. (" +:+ exn_str e +:+ ")") Stderr;;
        mret None
      else raiseM e
  | Ret _ =>
      xml_file_content ← read_copy dest_gz_tmp;
      remove_copy dest_gz_tmp;;
      mret xml_file_content
  end.

(** [parse_inspire_xml] (lines 132-161) *)
Definition parse_inspire_xml (xml_content : option string)
  : M W (option (gmap string string)) :=
  match etree_fromstring xml_content with
  | Raise e =>
      if is_parse_error e then
        write_message ("Error: failed to parse XML content. ("
                       +:+ exn_str e +:+ ")") Stderr;;
        mret None
      else raiseM e
  | Ret root => mret (Some (collect_authority_ids root))
  end.

(** [get_ccid] (lines 196-204) *)
Definition get_ccid (record_id : Z) : M W (option string) :=
  control_numbers ← query (get_fieldvalues record_id "035__a")
                          (GetFieldvalues record_id "035__a");
  mret (get_ccid_of_values control_numbers).

(** The loop of [synchronize] (lines 240-251) on the variable [output]:
    a missing key is the [KeyError] that is passed over. *)
Fixpoint build_output (authority_ids : gmap string string) (output : string)
    (record_ids : list Z) : M W string :=
  match record_ids with
  | [] => mret output
  | record_id :: rest =>
      cern_id ← get_ccid record_id;
      match authority_ids !! ("CERN-" +:+ PyStr.format_opt cern_id) with
      | Some inspire_id =>
          build_output authority_ids
            (output +:+ record_format record_id inspire_id) rest
      | None => build_output authority_ids output rest
      end
  end.

(** [with open(path, "w") as f: body]: the file is closed on the way out
    whatever [body] did, and an exception of the close is the one that
    leaves the block. *)
Definition with_open {A} (path : string) (body : M W A) : M W A :=
  call (file_open path) (FileOpen path);;
  finished ← attempt body;
  closed ← attempt (call (file_close path) (FileClose path));
  match closed, finished with
  | Raise e, _ => raiseM e
  | Ret _, Raise e => raiseM e
  | Ret _, Ret a => mret a
  end.

(** The arguments of the [bibupload] task (lines 263-268). *)
Definition bibupload_args (dest_xml : string) : list string :=
  ["bibupload"; "bibauthority-people"; "--append"; dest_xml;
   "-P"; "-1"; "-N"; "inspire-authority-ids-synchronizer"].

(** Lines 253-278 of [synchronize]: write the updates and submit them. *)
Definition emit (output dest_xml : string) : M W unit :=
  if bool_decide (output ≠ "") then
    tried ← attempt (
      with_open dest_xml
        (call (file_write dest_xml output) (FileWrite dest_xml output));;
      write_message ("Info: updates have been written to '" +:+ dest_xml +:+ "'.")
                    NoStream;;
      task_id ← call (task_low_level_submission (bibupload_args dest_xml))
                     (TaskSubmit (bibupload_args dest_xml));
      write_message ("Info: task '" +:+ PyStr.format_int task_id
                     +:+ "' has been submitted to the scheduler") NoStream);
    match tried with
    | Raise e =>
        if is_EnvironmentError e then
          write_message ("Error: failed to write updates to '" +:+ dest_xml
                         +:+ "'. (" +:+ exn_str e +:+ ")") Stderr
        else raiseM e
    | Ret _ => mret tt
    end
  else
    write_message "Info: no updates for records have been found" NoStream.

(** [synchronize] (lines 206-278) *)
Definition synchronize (record_ids : list Z) (authority_ids : gmap string string)
    (dest_xml : string) : M W unit :=
  output ← build_output authority_ids "" record_ids;
  emit output dest_xml.

(** [bst_inspire_authority_ids_synchronizer] (lines 281-301): [None] and
    the empty dictionary are both false at line 293, the empty list at
    line 297. *)
Definition bst_inspire_authority_ids_synchronizer (url tmp_dir : string) : M W unit :=
  xml_content ← get_inspire_dump url
    (os_path_join tmp_dir SYNC_LOCAL_INSPIRE_RECORDS_FILE_NAME);
  parsed ← parse_inspire_xml xml_content;
  match parsed with
  | Some authority_ids =>
      if bool_decide (authority_ids ≠ ∅) then
        record_ids ← get_record_ids;
        write_message ("Info: " +:+ pretty (length record_ids)
                       +:+ " record ids have been requested") NoStream;;
        if Etree.nonempty record_ids then
          synchronize record_ids authority_ids
            (os_path_join tmp_dir SYNC_LOCAL_CDS_RECORDS_UPDATES_FILE_NAME)
        else mret tt
      else mret tt
  | None => mret tt
  end.

(** The updates of a run, from what the fetcher returned and from the
    answers of the record store: [None] when the run ends before
    [synchronize] is called (lines 291-297). *)
Definition expected_updates (fetched : result (option string))
    (ids : list Z) (values : Z → list string) : option (list (Z * string)) :=
  match fetched with
  | Ret xml_content =>
      match etree_fromstring xml_content with
      | Ret root =>
          if bool_decide (collect_authority_ids root ≠ ∅) && Etree.nonempty ids
          then Some (matched_updates (collect_authority_ids root)
                                     (candidates_of values ids))
          else None
      | Raise _ => None
      end
  | Raise _ => None
  end.

End Tasklet.

(** ** An in-memory world

    A substitute for the collaborators: the network is a table of files by
    URL, the file system a table of files by path with a list of paths that
    cannot be written and a list of paths that cannot be removed, the record
    store a list of ids and a table of 035__a values, the task queue a list
    of submitted argument lists. *)

Module Fake.

(** A file is gzip data (given by what it unzips to) or anything else. *)
Inductive file : Type := Gz (content : string) | Plain (content : string).

Record world : Type := World {
  remote : gmap string file;
  files : gmap string file;
  readonly : list string;
  sticky : list string;
  people : list Z;
  fields : gmap Z (list string);
  queue : list (list string)
}.

Definition set_files (f : gmap string file → gmap string file) (w : world) : world :=
  World (remote w) (f (files w)) (readonly w) (sticky w) (people w) (fields w)
        (queue w).

Definition set_queue (q : list (list string)) (w : world) : world :=
  World (remote w) (files w) (readonly w) (sticky w) (people w) (fields w) q.

Definition fake_urlretrieve (src dest : string) (w : world) : result unit * world :=
  match remote w !! src with
  | Some f =>
      if bool_decide (dest ∈ readonly w)
      then (Raise (IOError "Permission denied"), w)
      else (Ret tt, set_files <[dest := f]> w)
  | None => (Raise (IOError "Name or service not known"), w)
  end.

Definition fake_gzip_open (path : string) (w : world) : result unit * world :=
  match files w !! path with
  | Some _ => (Ret tt, w)
  | None => (Raise (IOError "No such file or directory"), w)
  end.

Definition fake_gzip_read (path : string) (w : world) : result string * world :=
  match files w !! path with
  | Some (Gz content) => (Ret content, w)
  | Some (Plain _) => (Raise (IOError "Not a gzipped file"), w)
  | None => (Raise (IOError "No such file or directory"), w)
  end.

Definition fake_os_remove (path : string) (w : world) : result unit * world :=
  match files w !! path with
  | Some _ =>
      if bool_decide (path ∈ sticky w)
      then (Raise (OSError "Operation not permitted"), w)
      else (Ret tt, set_files (delete path) w)
  | None => (Raise (OSError "No such file or directory"), w)
  end.

Definition fake_search (cc : string) (w : world) : list Z * world :=
  (if bool_decide (cc = "CERN People") then people w else [], w).

Definition fake_fieldvalues (recid : Z) (tag : string) (w : world)
  : list string * world :=
  (if bool_decide (tag = "035__a") then default [] (fields w !! recid) else [], w).

Definition fake_file_open (path : string) (w : world) : result unit * world :=
  if bool_decide (path ∈ readonly w)
  then (Raise (IOError "Permission denied"), w)
  else (Ret tt, set_files <[path := Plain ""]> w).

Definition fake_file_write (path content : string) (w : world) : result unit * world :=
  (Ret tt, set_files <[path := Plain content]> w).

Definition fake_submit (args : list string) (w : world) : result Z * world :=
  (Ret (Z.of_nat (S (length (queue w)))), set_queue (queue w ++ [args]) w).

(** The collaborators over the in-memory world, for a given parser. *)
Definition collaborators (parse : string → node + string) : Collaborators world := {|
  urlretrieve := fake_urlretrieve;
  gzip_open := fake_gzip_open;
  gzip_read := fake_gzip_read;
  gzip_close := λ _ w, (Ret tt, w);
  os_remove := fake_os_remove;
  xml_parse := parse;
  perform_request_search := fake_search;
  get_fieldvalues := fake_fieldvalues;
  file_open := fake_file_open;
  file_write := fake_file_write;
  file_close := λ _ w, (Ret tt, w);
  task_low_level_submission := fake_submit
|}.

End Fake.

(** ** Sample data: the records of the docstrings and of tests.py *)

Module Sample.

Definition subfield (code value : string) : node :=
  Element "subfield" [("code", code)] (Some value) [] None.

Definition datafield (subfields : list node) : node :=
  Element "datafield" [("tag", "035"); ("ind1", " "); ("ind2", " ")]
          None subfields None.

Definition record (datafields : list node) : node :=
  Element "record" [] None datafields None.

(** The two records of the docstring of [parse_inspire_xml], under one
    root. *)
Definition dump : node :=
  Element "collection" [] None
    [ record [ datafield [subfield "9" "INSPIRE"; subfield "a" "INSPIRE-00440376"] ];
      record [ datafield [subfield "9" "CERN"; subfield "a" "CERN-389900"];
               datafield [subfield "9" "INSPIRE"; subfield "a" "INSPIRE-00146525"] ] ]
    None.

Definition dump_text : string := "<collection>two records</collection>".

(** A parser that knows the sample document and the empty record of
    tests.py, and refuses everything else. *)
Definition parse (s : string) : node + string :=
  if bool_decide (s = dump_text) then inl dump
  else if bool_decide (s = "<record></record>") then inl (record [])
  else inr "syntax error".

#[global] Instance collaborators : Collaborators Fake.world :=
  Fake.collaborators parse.

(** Record 2108556 has a CCID and no INSPIRE id; record 2148049 has both,
    the CCID first (the two examples of the docstring of [get_ccid]);
    record 2148050, outside the collection, has the INSPIRE id first. *)
Definition world : Fake.world := {|
  Fake.remote := {[ SYNC_URL_INSPIRE_RECORDS_SRC := Fake.Gz dump_text ]};
  Fake.files := ∅;
  Fake.readonly := [];
  Fake.sticky := [];
  Fake.people := [2108556; 2148049];
  Fake.fields := {[ 2108556 := ["AUTHOR|(SzGeCERN)389900"];
                    2148049 := ["AUTHOR|(SzGeCERN)646446";
                                "AUTHOR|(INSPIRE)INSPIRE-00198527"];
                    2148050 := ["AUTHOR|(ORCID)0000-0002-1825-0097";
                                "AUTHOR|(INSPIRE)INSPIRE-00198527";
                                "AUTHOR|(SzGeCERN)646446"] ]};
  Fake.queue := []
|}.

(** The sample world with an updates file that cannot be written. *)
Definition readonly_world : Fake.world := {|
  Fake.remote := Fake.remote world;
  Fake.files := ∅;
  Fake.readonly := ["/tmp/cds-records-updates.xml"];
  Fake.sticky := [];
  Fake.people := Fake.people world;
  Fake.fields := Fake.fields world;
  Fake.queue := []
|}.

(** A world in which the dump is served as a file that is not gzip data,
    and the copy, once made, cannot be removed. *)
Definition garbled_world : Fake.world := {|
  Fake.remote := {[ SYNC_URL_INSPIRE_RECORDS_SRC := Fake.Plain "404 Not Found" ]};
  Fake.files := ∅;
  Fake.readonly := [];
  Fake.sticky := ["/tmp/HepNames-records.xml.gz"];
  Fake.people := Fake.people world;
  Fake.fields := Fake.fields world;
  Fake.queue := []
|}.

(** The sample world without a network. *)
Definition offline_world : Fake.world := {|
  Fake.remote := ∅;
  Fake.files := ∅;
  Fake.readonly := [];
  Fake.sticky := [];
  Fake.people := Fake.people world;
  Fake.fields := Fake.fields world;
  Fake.queue := []
|}.

(** The mapping of the sample dump. *)
Definition authority_ids : gmap string string :=
  {[ "CERN-389900" := "INSPIRE-00146525" ]}.

(** A dump whose one record has the internal id CERN-None, and its
    mapping. *)
Definition none_dump : node :=
  Element "collection" [] None
    [ record [ datafield [subfield "9" "CERN"; subfield "a" "CERN-None"];
               datafield [subfield "9" "INSPIRE"; subfield "a" "INSPIRE-00000001"] ] ]
    None.

Definition none_authority_ids : gmap string string :=
  {[ "CERN-None" := "INSPIRE-00000001" ]}.

(** A record whose last INSPIRE datafield has no [a] subfield. *)
Definition record_with_bare_field : node :=
  record [ datafield [subfield "9" "CERN"; subfield "a" "CERN-389900"];
           datafield [subfield "9" "INSPIRE"; subfield "a" "INSPIRE-00146525"];
           datafield [subfield "9" "INSPIRE"] ].

(** A record whose last datafield carries both tags. *)
Definition record_with_double_tag : node :=
  record [ datafield [subfield "9" "CERN"; subfield "a" "CERN-389900"];
           datafield [subfield "9" "INSPIRE"; subfield "a" "INSPIRE-00146525"];
           datafield [subfield "9" "CERN"; subfield "9" "INSPIRE";
                      subfield "a" "CERN-389901"] ].

(** A world whose one record, 2108557, has no CCID and no INSPIRE id. *)
Definition keyless_world : Fake.world := {|
  Fake.remote := ∅;
  Fake.files := ∅;
  Fake.readonly := [];
  Fake.sticky := [];
  Fake.people := [2108557];
  Fake.fields := {[ 2108557 := ["AUTHOR|(ORCID)0000-0002-1825-0097"] ]};
  Fake.queue := []
|}.

(** The second record of the sample dump with a comment, a datafield of
    another tag and a controlfield among its children, under a tag of its
    own. *)
Definition cluttered_record : node :=
  Element "entry" [("id", "2")] (Some " ")
    [ Comment (Some " Ellis, Jonathan R. ") None;
      Element "controlfield" [("tag", "001")] (Some "1010819") [] None;
      datafield [subfield "9" "CERN"; subfield "a" "CERN-389900"];
      Element "datafield" [("tag", "100"); ("ind1", " "); ("ind2", " ")] None
              [subfield "9" "INSPIRE"; subfield "a" "Ellis, Jonathan R."] None;
      datafield [subfield "9" "INSPIRE"; subfield "a" "INSPIRE-00146525"] ]
    None.

End Sample.

(** ** The loop of [synchronize] read as select, look up, serialize *)

Section Candidates.
Context {W : Type} `{!Collaborators W}.

(** The candidates of a run: every record id with what [get_ccid] returns
    for it, read in the order of the list. *)
Fixpoint select_candidates (record_ids : list Z) : M W (list (Z * option string)) :=
  match record_ids with
  | [] => mret []
  | record_id :: rest =>
      cern_id ← get_ccid record_id;
      candidates ← select_candidates rest;
      mret ((record_id, cern_id) :: candidates)
  end.

End Candidates.

(** The payload of a list of updates: their fragments, one after another. *)
Definition serialize (updates : list (Z * string)) : string :=
  foldr (λ update payload, record_format update.1 update.2 +:+ payload) "" updates.

(** The candidates with a key. *)
Definition with_key (candidates : list (Z * option string)) : list (Z * option string) :=
  filter (λ candidate, is_Some candidate.2) candidates.

(** The events of a trace that are calls of the update submission. *)
Definition is_submit (ev : event) : bool :=
  match ev with TaskSubmit _ _ => true | _ => false end.

(** The events of a trace that open, write or close a file for writing. *)
Definition is_file_write (ev : event) : bool :=
  match ev with FileOpen _ _ | FileWrite _ _ _ | FileClose _ _ => true | _ => false end.

(** The events of a trace that are attempts to remove [path]. *)
Definition is_remove (path : string) (ev : event) : bool :=
  match ev with OsRemove p _ => bool_decide (p = path) | _ => false end.

(** The events of a trace that are a failed step of the payload write: the
    open, the write or the close raised. *)
Definition write_failed (ev : event) : bool :=
  match ev with
  | FileOpen _ (Raise _) | FileWrite _ _ (Raise _) | FileClose _ (Raise _) => true
  | _ => false
  end.

(** The events of a trace that are queries of the record store. *)
Definition is_store_query (ev : event) : bool :=
  match ev with PerformRequestSearch _ _ | GetFieldvalues _ _ _ => true | _ => false end.

(** The report of line 278. *)
Definition NO_UPDATES : event :=
  WriteMessage "Info: no updates for records have been found" NoStream.

(** ** The traversal of the parser read field by field *)

(** The datafields with a subfield 9 of the given text: the fields tagged
    with that namespace. *)
Definition carries_tag (value : string) (datafield : node) : bool :=
  Etree.nonempty (Etree.xpath_subfield_9 value datafield).

(** The datafields the inner loop takes for the INSPIRE branch (line 147). *)
Definition inspire_tagged (datafield : node) : bool :=
  carries_tag "INSPIRE" datafield.

(** The datafields the inner loop takes for the CERN branch (line 152, an
    [elif]: a datafield with both tags is taken for the INSPIRE branch). *)
Definition cern_tagged (datafield : node) : bool :=
  negb (carries_tag "INSPIRE" datafield) && carries_tag "CERN" datafield.

(** The datafields with an [a] subfield. *)
Definition has_subfield_a (datafield : node) : bool :=
  match Etree.find_subfield_a datafield with Some _ => true | None => false end.

(** The text of the first [a] subfield of a datafield, [None] when there is
    no such subfield or it holds no text. *)
Definition subfield_a_text (datafield : node) : option string :=
  Etree.find_subfield_a datafield ≫= Etree.text.

(** The [a] text of the last of a list of datafields. *)
Definition last_value (datafields : list node) : option string :=
  last datafields ≫= subfield_a_text.

(** The entry a record writes into the mapping (lines 158-159), if any. *)
Definition record_entry (record : node) : option (string * string) :=
  match scan_record record with
  | (Some inspire_id, Some cern_id) =>
      if PyStr.truthy (Some inspire_id) && PyStr.truthy (Some cern_id)
      then Some (cern_id, inspire_id)
      else None
  | _ => None
  end.

(** Writing the entry of a record, if it has one. *)
Definition write_entry (authority_ids : gmap string string) (record : node)
  : gmap string string :=
  match record_entry record with
  | Some (cern_id, inspire_id) => <[cern_id := inspire_id]> authority_ids
  | None => authority_ids
  end.

(** The outcomes of a removal that line 88 lets the function go on after:
    the removal returned, or raised an [OSError]. *)
Definition is_OSError_or_returned (removed : result unit) : bool :=
  match removed with
  | Ret _ => true
  | Raise e => is_OSError e
  end.

(** The record store answers as [ids] and [values] say: a search returns
    [ids], and the field values of a record are [values] of its id. *)
Definition store_answers (ids : list Z) (values : Z → list string) (ev : event) : Prop :=
  match ev with
  | PerformRequestSearch _ answer => answer = ids
  | GetFieldvalues recid _ answer => answer = values recid
  | _ => True
  end.

(** The events of the fetcher and of the parser: no query of the record
    store, no write of the payload, no submission. *)
Definition before_selection (ev : event) : bool :=
  negb (is_store_query ev) && negb (is_file_write ev) && negb (is_submit ev).

(** The events that are neither a write of the payload nor a submission. *)
Definition quiet (ev : event) : Prop :=
  is_file_write ev = false ∧ is_submit ev = false.

(** ** A scripted world

    Collaborators whose every call has the outcome a script gives it,
    whatever the arguments and however often it is made; the script is the
    world and no call changes it. It reaches the outcomes the in-memory
    world has no cause for, such as an exception of a class no handler of
    the module names. *)

Module Script.

Record script : Type := Script {
  copy : result unit;
  opened : result unit;
  content : result string;
  closed : result unit;
  removed : result unit;
  ids : list Z;
  values : Z → list string;
  file_opened : result unit;
  file_written : result unit;
  file_closed : result unit;
  submitted : result Z
}.

(** The collaborators over a script, for a given parser. *)
Definition collaborators (parse : string → node + string) : Collaborators script := {|
  urlretrieve := λ _ _ w, (copy w, w);
  gzip_open := λ _ w, (opened w, w);
  gzip_read := λ _ w, (content w, w);
  gzip_close := λ _ w, (closed w, w);
  os_remove := λ _ w, (removed w, w);
  xml_parse := parse;
  perform_request_search := λ _ w, (ids w, w);
  get_fieldvalues := λ recid _ w, (values w recid, w);
  file_open := λ _ w, (file_opened w, w);
  file_write := λ _ _ w, (file_written w, w);
  file_close := λ _ w, (file_closed w, w);
  task_low_level_submission := λ _ w, (submitted w, w)
|}.

#[global] Instance sample_collaborators : Collaborators script | 100 :=
  collaborators Sample.parse.

(** The script of a run in which every call returns: the sample dump, the
    two records of the sample collection, task id 7. *)
Definition fine : script := {|
  copy := Ret tt;
  opened := Ret tt;
  content := Ret Sample.dump_text;
  closed := Ret tt;
  removed := Ret tt;
  ids := [2108556; 2148049];
  values := λ recid, default [] (Fake.fields Sample.world !! recid);
  file_opened := Ret tt;
  file_written := Ret tt;
  file_closed := Ret tt;
  submitted := Ret 7
|}.

(** The script [fine] with a task queue that refuses the connection. *)
Definition queue_down : script := {|
  copy := Ret tt;
  opened := Ret tt;
  content := Ret Sample.dump_text;
  closed := Ret tt;
  removed := Ret tt;
  ids := [2108556; 2148049];
  values := λ recid, default [] (Fake.fields Sample.world !! recid);
  file_opened := Ret tt;
  file_written := Ret tt;
  file_closed := Ret tt;
  submitted := Raise (IOError "Connection refused")
|}.

(** The script [fine] with a task queue that raises an exception of a class
    of its own. *)
Definition queue_broken : script := {|
  copy := Ret tt;
  opened := Ret tt;
  content := Ret Sample.dump_text;
  closed := Ret tt;
  removed := Ret tt;
  ids := [2108556; 2148049];
  values := λ recid, default [] (Fake.fields Sample.world !! recid);
  file_opened := Ret tt;
  file_written := Ret tt;
  file_closed := Ret tt;
  submitted := Raise (OtherError "OperationalError" "server has gone away")
|}.

(** The script [fine] with a copy whose close raises an IOError after the
    read went through. *)
Definition close_fails : script := {|
  copy := Ret tt;
  opened := Ret tt;
  content := Ret Sample.dump_text;
  closed := Raise (IOError "Input/output error");
  removed := Ret tt;
  ids := [2108556; 2148049];
  values := λ recid, default [] (Fake.fields Sample.world !! recid);
  file_opened := Ret tt;
  file_written := Ret tt;
  file_closed := Ret tt;
  submitted := Ret 7
|}.

(** The script [fine] with a copy whose read raises an exception that is not
    an IOError (such as the error of zlib on damaged data). *)
Definition damaged : script := {|
  copy := Ret tt;
  opened := Ret tt;
  content := Raise (OtherError "zlib.error" "invalid block type");
  closed := Ret tt;
  removed := Ret tt;
  ids := [2108556; 2148049];
  values := λ recid, default [] (Fake.fields Sample.world !! recid);
  file_opened := Ret tt;
  file_written := Ret tt;
  file_closed := Ret tt;
  submitted := Ret 7
|}.

(** The script [fine] without a network. *)
Definition offline : script := {|
  copy := Raise (IOError "Name or service not known");
  opened := Ret tt;
  content := Ret Sample.dump_text;
  closed := Ret tt;
  removed := Ret tt;
  ids := [2108556; 2148049];
  values := λ recid, default [] (Fake.fields Sample.world !! recid);
  file_opened := Ret tt;
  file_written := Ret tt;
  file_closed := Ret tt;
  submitted := Ret 7
|}.

(** The script [fine] with an empty collection. *)
Definition nobody : script := {|
  copy := Ret tt;
  opened := Ret tt;
  content := Ret Sample.dump_text;
  closed := Ret tt;
  removed := Ret tt;
  ids := [];
  values := λ recid, default [] (Fake.fields Sample.world !! recid);
  file_opened := Ret tt;
  file_written := Ret tt;
  file_closed := Ret tt;
  submitted := Ret 7
|}.

(** The script [fine] with the empty record of tests.py as its dump. *)
Definition empty_dump : script := {|
  copy := Ret tt;
  opened := Ret tt;
  content := Ret "<record></record>";
  closed := Ret tt;
  removed := Ret tt;
  ids := [2108556; 2148049];
  values := λ recid, default [] (Fake.fields Sample.world !! recid);
  file_opened := Ret tt;
  file_written := Ret tt;
  file_closed := Ret tt;
  submitted := Ret 7
|}.

(** The script of a run in which every call that can raise raises an
    exception of the class its handler names. *)
Definition all_fail : script := {|
  copy := Ret tt;
  opened := Ret tt;
  content := Ret Sample.dump_text;
  closed := Raise (IOError "Input/output error");
  removed := Raise (OSError "Operation not permitted");
  ids := [2108556; 2148049];
  values := λ recid, default [] (Fake.fields Sample.world !! recid);
  file_opened := Ret tt;
  file_written := Raise (IOError "No space left on device");
  file_closed := Raise (IOError "No space left on device");
  submitted := Ret 7
|}.

(** The script [fine] with a record store whose every record has two CCID
    values and no INSPIRE value. *)
Definition two_ccids : script := {|
  copy := Ret tt;
  opened := Ret tt;
  content := Ret Sample.dump_text;
  closed := Ret tt;
  removed := Ret tt;
  ids := [2108556];
  values := λ _, ["AUTHOR|(SzGeCERN)389900"; "AUTHOR|(ORCID)0000-0002-1825-0097";
                  "AUTHOR|(SzGeCERN)646446"];
  file_opened := Ret tt;
  file_written := Ret tt;
  file_closed := Ret tt;
  submitted := Ret 7
|}.

End Script.

(** ** The scan of [get_ccid] read as a search *)

(** The values with the CCID marker. *)
Definition ccid_values (values : list string) : list string :=
  filter (λ v, PyStr.startswith v CCID_MARKER) values.

(** What [partition] leaves of a value after the CCID marker. *)
Definition ccid_key (value : string) : string :=
  (PyStr.partition value CCID_MARKER).2.

(** ** The calls of [synchronize] *)

(** The field queries of a run of the loop: one per record id, with the
    answer it got. *)
Definition field_queries (record_ids : list Z) (answers : list (list string))
  : list event :=
  zip_with (λ record_id answer, GetFieldvalues record_id "035__a" answer)
           record_ids answers.

(** The candidates the answers give. *)
Definition candidates_from (record_ids : list Z) (answers : list (list string))
  : list (Z * option string) :=
  zip record_ids (get_ccid_of_values <$> answers).

(** The report of line 259. *)
Definition WRITTEN (dest_xml : string) : event :=
  WriteMessage ("Info: updates have been written to '" +:+ dest_xml +:+ "'.") NoStream.

(** The report of line 269. *)
Definition SUBMITTED (task_id : Z) : event :=
  WriteMessage ("Info: task '" +:+ PyStr.format_int task_id
                +:+ "' has been submitted to the scheduler") NoStream.

(** The report of line 273. *)
Definition WRITE_FAILED (dest_xml : string) (e : exn) : event :=
  WriteMessage ("Error: failed to write updates to '" +:+ dest_xml
                +:+ "'. (" +:+ exn_str e +:+ ")") Stderr.

(** The events that are a step of the payload write or a submission. *)
Definition is_output_call (ev : event) : bool :=
  is_file_write ev || is_submit ev.

(** ** The calls of [get_inspire_dump] *)

(** The name of the function an event is a call of; a report has none. *)
Definition call_name (ev : event) : option string :=
  match ev with
  | Urlretrieve _ _ _ => Some "urllib.urlretrieve"
  | GzipOpen _ _ => Some "gzip.open"
  | GzipRead _ _ => Some "f.read"
  | GzipClose _ _ => Some "f.close"
  | OsRemove _ _ => Some "os.remove"
  | PerformRequestSearch _ _ => Some "perform_request_search"
  | GetFieldvalues _ _ _ => Some "get_fieldvalues"
  | FileOpen _ _ => Some "open"
  | FileWrite _ _ _ => Some "f.write"
  | FileClose _ _ => Some "f.close"
  | TaskSubmit _ _ => Some "task_low_level_submission"
  | WriteMessage _ _ => None
  end.

(** The events of the fetcher for [src] and [dest_gz_tmp]: its calls on
    these two and its reports. *)
Definition fetches (src dest_gz_tmp : string) (ev : event) : Prop :=
  match ev with
  | Urlretrieve from to _ => from = src ∧ to = dest_gz_tmp
  | GzipOpen path _ | GzipRead path _ | GzipClose path _ | OsRemove path _ =>
      path = dest_gz_tmp
  | WriteMessage _ to => to = Stderr
  | _ => False
  end.

(** The report of line 81. *)
Definition UNZIP_FAILED (dest_gz_tmp : string) (e : exn) : event :=
  WriteMessage ("Error: failed to unzip '" +:+ dest_gz_tmp +:+ "'. ("
                +:+ exn_str e +:+ ")") Stderr.

(** ** The children the parser looks at *)

(** The children of a record that the inner loop visits: the datafields of
    tag 035. *)
Definition is_datafield_035 (child : node) : bool :=
  Etree.has_tag "datafield" child && Etree.attr_is "tag" "035" child.

(** The records of a dump that write an entry. *)
Definition has_entry (record : node) : bool :=
  match record_entry record with Some _ => true | None => false end.

(** ** The reports of the orchestrator and of the parser *)

(** The report of line 135. *)
Definition PARSE_FAILED (e : exn) : event :=
  WriteMessage ("Error: failed to parse XML content. (" +:+ exn_str e +:+ ")") Stderr.

(** The report of line 295. *)
Definition REQUESTED (record_ids : list Z) : event :=
  WriteMessage ("Info: " +:+ pretty (length record_ids)
                +:+ " record ids have been requested") NoStream.

(** ** Exceptions and their handlers *)

(** The events whose call returned, or raised an exception of the class the
    handler around the call names: [IOError] for the copy and for the open,
    the read and the close of the copy (lines 68 and 80), [OSError] for the
    removal (line 88), [EnvironmentError] for the write of the updates and
    the submission (line 272). *)
Definition handled (ev : event) : bool :=
  match ev with
  | Urlretrieve _ _ (Raise e) | GzipOpen _ (Raise e)
  | GzipRead _ (Raise e) | GzipClose _ (Raise e) => is_IOError e
  | OsRemove _ (Raise e) => is_OSError e
  | FileOpen _ (Raise e) | FileWrite _ _ (Raise e) | FileClose _ (Raise e)
  | TaskSubmit _ (Raise e) => is_EnvironmentError e
  | _ => true
  end.

(** The events that are calls, not reports. *)
Definition is_call (ev : event) : bool :=
  match call_name ev with Some _ => true | None => false end.

(** ** Properties of the string primitives *)

Lemma startswith_app (p s : string) : PyStr.startswith (p +:+ s) p = true.
Proof.
  induction p as [|a p IH]; simpl; [reflexivity|].
  rewrite decide_True by reflexivity. exact IH.
Qed.

Lemma drop_app (p s : string) : PyStr.drop (String.length p) (p +:+ s) = s.
Proof. induction p as [|a p IH]; simpl; [reflexivity | exact IH]. Qed.

(** Partitioning a string at the separator it starts with leaves what
    follows the separator. *)
Lemma partition_prefix (p s : string) :
  PyStr.partition (p +:+ s) p = (EmptyString, p, s).
Proof.
  unfold PyStr.partition.
  destruct p as [|a p]; simpl.
  - destruct s; reflexivity.
  - rewrite decide_True by reflexivity.
    rewrite startswith_app, drop_app. reflexivity.
Qed.

(** A string that starts with [p] is [p] followed by something. *)
Lemma startswith_inv (v p : string) :
  PyStr.startswith v p = true → ∃ s, v = p +:+ s.
Proof.
  revert v. induction p as [|a p IH]; intros v; simpl.
  - intros _. exists v. reflexivity.
  - destruct v as [|b v]; [discriminate|].
    case_decide; [subst b|discriminate].
    intros [s ->]%IH. exists s. reflexivity.
Qed.

(** A string has at most one of the two markers as its start. *)
Lemma markers_exclusive (v : string) :
  PyStr.startswith v INSPIRE_MARKER = true →
  PyStr.startswith v CCID_MARKER = false.
Proof. intros [s ->]%startswith_inv. reflexivity. Qed.

(** ** The scan of [get_ccid] *)

(** The loop is left at the first value with the INSPIRE marker: what comes
    after it is not read, and [cern_id] is what the values before it made
    it. *)
Lemma get_ccid_loop_break (cern_id : option string) (before : list string)
    (marked : string) (after : list string) :
  no_inspire_marker before →
  PyStr.startswith marked INSPIRE_MARKER = true →
  get_ccid_loop cern_id (before ++ marked :: after) = get_ccid_loop cern_id before.
Proof.
  intros Hbefore Hmarked. revert cern_id.
  induction Hbefore as [|v before Hv _ IH]; intros cern_id;
    cbn [get_ccid_loop app].
  - rewrite Hmarked. reflexivity.
  - rewrite Hv. destruct (PyStr.startswith v CCID_MARKER).
    + destruct (PyStr.partition v CCID_MARKER) as [[? ?] t]. apply IH.
    + apply IH.
Qed.

(** Values without the CCID marker never set [cern_id]. *)
Lemma get_ccid_loop_no_ccid (cern_id : option string) (values : list string) :
  no_ccid_marker values → get_ccid_loop cern_id values = cern_id.
Proof.
  induction 1 as [|v values Hv _ IH]; cbn [get_ccid_loop]; [reflexivity|].
  rewrite Hv. destruct (PyStr.startswith v INSPIRE_MARKER); [reflexivity | exact IH].
Qed.

(** A value with the CCID marker sets [cern_id] to what follows the marker,
    and later values without a marker leave it. *)
Lemma get_ccid_loop_capture (cern_id : option string) (key : string)
    (rest : list string) :
  get_ccid_loop cern_id ((CCID_MARKER +:+ key) :: rest)
  = get_ccid_loop (Some key) rest.
Proof.
  cbn [get_ccid_loop].
  replace (PyStr.startswith (CCID_MARKER +:+ key) INSPIRE_MARKER) with false
    by reflexivity.
  rewrite startswith_app, partition_prefix. reflexivity.
Qed.

Lemma get_ccid_loop_inspire_first (cern_id : option string) (before : list string)
    (marked : string) (after : list string) :
  no_ccid_marker before →
  PyStr.startswith marked INSPIRE_MARKER = true →
  get_ccid_loop cern_id (before ++ marked :: after) = cern_id.
Proof.
  intros Hbefore Hmarked.
  induction Hbefore as [|v before Hv _ IH]; cbn [get_ccid_loop app].
  - rewrite Hmarked. reflexivity.
  - rewrite Hv. destruct (PyStr.startswith v INSPIRE_MARKER); [reflexivity | exact IH].
Qed.

(** A captured key survives the [break]: with a CCID value, then values
    without a marker, then a value with the INSPIRE marker, the scan returns
    the CCID. *)
Lemma get_ccid_keeps_key_at_break (key : string) (between : list string)
    (marked : string) (after : list string) :
  no_inspire_marker between → no_ccid_marker between →
  PyStr.startswith marked INSPIRE_MARKER = true →
  get_ccid_of_values ((CCID_MARKER +:+ key) :: between ++ marked :: after) = Some key.
Proof.
  intros Hi Hc Hmarked. unfold get_ccid_of_values.
  rewrite get_ccid_loop_capture, get_ccid_loop_break by assumption.
  apply get_ccid_loop_no_ccid, Hc.
Qed.

Section GetCcid.
Context {W : Type} `{!Collaborators W}.

(** [get_ccid] returns the scan of the values the record store answers
    with, and always returns. *)
Lemma get_ccid_run (record_id : Z) (s : state W) :
  get_ccid record_id s
  = (Ret (get_ccid_of_values (get_fieldvalues record_id "035__a" s.1).1),
     ((get_fieldvalues record_id "035__a" s.1).2,
      s.2 ++ [GetFieldvalues record_id "035__a"
                (get_fieldvalues record_id "035__a" s.1).1])).
Proof.
  unfold get_ccid, mbind, M_bind, bindM, query, mret, M_ret, retM.
  destruct (get_fieldvalues record_id "035__a" s.1) as [values w']. reflexivity.
Qed.

End GetCcid.

(** C1 (the code departs from the claim): on the values of Example 2 of the
    docstring of get_ccid, a CCID value followed by a value with the INSPIRE
    marker, the scan returns the captured CCID 646446 and not None; and so
    does get_ccid for record 2148049 of the sample world, which holds these
    two values. *)
Theorem get_ccid_docstring_example_2 :
  get_ccid_of_values ["AUTHOR|(SzGeCERN)646446"; "AUTHOR|(INSPIRE)INSPIRE-00198527"]
  = Some "646446"
  ∧ (get_ccid 2148049 (Sample.world, [])).1 = Ret (Some "646446").
Proof. split; reflexivity. Qed.

(** C6: when the values of field 035__a of a record hold a value with the
    INSPIRE marker and no value before it has the CCID marker, get_ccid
    returns None. *)
Theorem get_ccid_inspire_first {W : Type} `{!Collaborators W}
    (record_id : Z) (s : state W)
    (before : list string) (marked : string) (after : list string) :
  (get_fieldvalues record_id "035__a" s.1).1 = before ++ marked :: after →
  no_ccid_marker before →
  PyStr.startswith marked INSPIRE_MARKER = true →
  (get_ccid record_id s).1 = Ret None.
Proof.
  intros Hvalues Hbefore Hmarked.
  rewrite get_ccid_run; cbn [fst]. rewrite Hvalues.
  unfold get_ccid_of_values.
  rewrite get_ccid_loop_inspire_first by assumption. reflexivity.
Qed.

(** C6 at record 2148050 of the sample world, whose INSPIRE value comes
    before its CCID value. *)
Lemma get_ccid_inspire_first_witness :
  (get_ccid 2148050 (Sample.world, [])).1 = Ret None.
Proof.
  apply (get_ccid_inspire_first 2148050 (Sample.world, [])
           ["AUTHOR|(ORCID)0000-0002-1825-0097"]
           "AUTHOR|(INSPIRE)INSPIRE-00198527"
           ["AUTHOR|(SzGeCERN)646446"]).
  - reflexivity.
  - repeat constructor.
  - reflexivity.
Defined.

(** ** The loop of [synchronize] *)

Lemma string_app_assoc (a b c : string) : (a +:+ b) +:+ c = a +:+ (b +:+ c).
Proof.
  induction a as [|x a IH]; [reflexivity|].
  change (String x ((a +:+ b) +:+ c) = String x (a +:+ (b +:+ c))). by f_equal.
Qed.

Lemma string_app_nil_r (a : string) : a +:+ "" = a.
Proof.
  induction a as [|x a IH]; [reflexivity|].
  change (String x (a +:+ "") = String x a). by f_equal.
Qed.

(** Unfolds the operations of the monad in the goal. *)
Ltac unfold_M :=
  unfold mbind, mret, M_bind, M_ret, bindM, retM, raiseM, attempt, call, query,
    write_message.

Ltac unfold_M_in H :=
  unfold mbind, mret, M_bind, M_ret, bindM, retM, raiseM, attempt, call, query,
    write_message in H.

(** Cases on the outcome of the next call of the collaborator [f]. *)
Ltac run_call f :=
  cbn [fst snd];
  match goal with |- context [f ?w] => destruct (f w) as [[?|?] ?] eqn:? end;
  cbn [fst snd].

(** The updates of a list of candidates, one candidate at a time. *)
Lemma matched_updates_cons (authority_ids : gmap string string)
    (record_id : Z) (cern_id : option string) (candidates : list (Z * option string)) :
  matched_updates authority_ids ((record_id, cern_id) :: candidates)
  = match authority_ids !! ("CERN-" +:+ PyStr.format_opt cern_id) with
    | Some inspire_id => (record_id, inspire_id) :: matched_updates authority_ids candidates
    | None => matched_updates authority_ids candidates
    end.
Proof.
  unfold matched_updates at 1. cbn [omap list_omap].
  unfold lookup_candidate at 1. cbn [fst snd].
  by destruct (authority_ids !! _).
Qed.

Section BuildOutput.
Context {W : Type} `{!Collaborators W}.

(** Reading the candidates always returns, with one candidate per record
    id, in the order of the list. *)
Lemma select_candidates_returns (record_ids : list Z) (s : state W) :
  ∃ candidates s',
    select_candidates record_ids s = (Ret candidates, s')
    ∧ candidates.*1 = record_ids.
Proof.
  revert s. induction record_ids as [|record_id rest IH]; intros s.
  - exists [], s. split; reflexivity.
  - cbn [select_candidates]. unfold mbind, M_bind, bindM.
    rewrite get_ccid_run.
    match goal with |- context [select_candidates rest ?s1] =>
      destruct (IH s1) as (candidates & s' & -> & Hids) end.
    eexists _, s'. split; [reflexivity|].
    cbn. by rewrite Hids.
Qed.

(** The loop of [synchronize] makes the calls [select_candidates] makes and
    appends to [output] the payload of the candidates found in the
    mapping. *)
Lemma build_output_select (authority_ids : gmap string string)
    (record_ids : list Z) (output : string) (s : state W)
    (candidates : list (Z * option string)) (s' : state W) :
  select_candidates record_ids s = (Ret candidates, s') →
  build_output authority_ids output record_ids s
  = (Ret (output +:+ serialize (matched_updates authority_ids candidates)), s').
Proof.
  revert output s candidates.
  induction record_ids as [|record_id rest IH]; intros output s candidates.
  - intros [= <- <-]. cbn. by rewrite string_app_nil_r.
  - cbn [select_candidates build_output]. unfold mbind, M_bind, bindM.
    rewrite get_ccid_run.
    match goal with |- context [select_candidates rest ?s1] =>
      destruct (select_candidates_returns rest s1) as (cs & s2 & Hcs & _) end.
    rewrite Hcs. intros [= <- <-].
    rewrite matched_updates_cons.
    destruct (authority_ids !! _) as [inspire_id|].
    + rewrite (IH _ _ _ Hcs). cbn [serialize foldr fst snd].
      by rewrite string_app_assoc.
    + apply (IH _ _ _ Hcs).
Qed.

End BuildOutput.

(** The record ids of the updates are a subsequence of the record ids of
    the candidates. *)
Lemma matched_updates_sublist (authority_ids : gmap string string)
    (candidates : list (Z * option string)) :
  (matched_updates authority_ids candidates).*1 `sublist_of` candidates.*1.
Proof.
  induction candidates as [|[record_id cern_id] candidates IH]; [constructor|].
  rewrite matched_updates_cons.
  destruct (authority_ids !! _); cbn; by constructor.
Qed.

(** A subsequence has no more occurrences of a value than the list. *)
Lemma sublist_occurrences (x : Z) (l1 l2 : list Z) :
  l1 `sublist_of` l2 →
  (length (filter (λ y, y = x) l1) ≤ length (filter (λ y, y = x) l2))%nat.
Proof.
  induction 1 as [|y l1 l2 _ IH|y l1 l2 _ IH]; [done|..];
    rewrite ?filter_cons; repeat case_decide; cbn; lia.
Qed.

(** ** The emitter (lines 253-278) *)

Lemma record_format_nonempty (record_id : Z) (inspire_id : string) :
  record_format record_id inspire_id ≠ "".
Proof. discriminate. Qed.

(** The payload is empty exactly when there is no update. *)
Lemma serialize_empty (updates : list (Z * string)) :
  serialize updates = "" ↔ updates = [].
Proof.
  split; [|by intros ->].
  destruct updates as [|[record_id inspire_id] updates]; [done|].
  discriminate.
Qed.

(** A trace of queries of the record store holds no event of another kind. *)
Lemma store_queries_only (f : event → bool) (evs : list event) :
  (∀ ev, is_store_query ev = true → f ev = false) →
  Forall (λ ev, is_store_query ev = true) evs →
  existsb f evs = false.
Proof.
  intros Hf. induction 1 as [|ev evs Hev _ IH]; [done|].
  cbn. by rewrite (Hf _ Hev), IH.
Qed.

Lemma store_query_not_file_write ev : is_store_query ev = true → is_file_write ev = false.
Proof. by destruct ev. Qed.

Lemma store_query_not_submit ev : is_store_query ev = true → is_submit ev = false.
Proof. by destruct ev. Qed.

Lemma store_query_not_write_failed ev : is_store_query ev = true → write_failed ev = false.
Proof. by destruct ev. Qed.

Section Emit.
Context {W : Type} `{!Collaborators W}.

(** The candidates are read with queries of the record store only. *)
Lemma select_candidates_trace (record_ids : list Z) (s : state W)
    (candidates : list (Z * option string)) (s' : state W) :
  select_candidates record_ids s = (Ret candidates, s') →
  ∃ evs, s'.2 = s.2 ++ evs ∧ Forall (λ ev, is_store_query ev = true) evs.
Proof.
  revert s candidates.
  induction record_ids as [|record_id rest IH]; intros s candidates.
  - intros [= <- <-]. exists []. by rewrite app_nil_r.
  - cbn [select_candidates]. unfold mbind, M_bind, bindM.
    rewrite get_ccid_run.
    match goal with |- context [select_candidates rest ?s1] =>
      destruct (select_candidates_returns rest s1) as (cs & s2 & Hcs & _) end.
    rewrite Hcs. intros [= <- <-].
    destruct (IH _ _ Hcs) as (evs & -> & Hq).
    eexists (_ :: evs). cbn [snd]. rewrite <- app_assoc.
    split; [reflexivity|]. by constructor.
Qed.

(** With an empty payload the emitter only reports that there is nothing
    to do. *)
Lemma emit_empty (dest_xml : string) (s : state W) :
  emit "" dest_xml s = (Ret tt, (s.1, s.2 ++ [NO_UPDATES])).
Proof. reflexivity. Qed.

(** What the emitter adds to the trace: file events for [dest_xml] and the
    payload only, and no submission once a step of the write has failed. *)
Lemma emit_trace (output dest_xml : string) (s : state W) :
  ∃ evs, (emit output dest_xml s).2.2 = s.2 ++ evs
         ∧ (existsb write_failed evs = true → existsb is_submit evs = false)
         ∧ (∀ path content r, FileWrite path content r ∈ evs →
              path = dest_xml ∧ content = output)
         ∧ (existsb is_submit evs = true →
              FileWrite dest_xml output (Ret tt) ∈ evs).
Proof.
  destruct s as [w tr]. unfold emit, with_open. case_bool_decide.
  2:{ eexists [_]. split; [reflexivity|].
      split; [done|]. split; [|done].
      intros ??? [=]%list_elem_of_singleton. }
  unfold_M.
  run_call (file_open dest_xml); [|destruct (is_EnvironmentError _)].
  1: run_call (file_write dest_xml output); run_call (file_close dest_xml);
     try (run_call (task_low_level_submission (bibupload_args dest_xml)));
     try destruct (is_EnvironmentError _).
  all: cbn [fst snd]; rewrite <- ?app_assoc; cbn [app];
    eexists; (split; [reflexivity|]);
    (split; [cbn; done|]);
    (split; [intros path content r Hin;
             repeat (apply elem_of_cons in Hin as [Hin|Hin]; [by simplify_eq|]);
             by apply elem_of_nil in Hin|]);
    cbn; try done; intros _; repeat destruct select unit;
    rewrite ?elem_of_cons; auto 10.
Qed.

End Emit.

Section Synchronize.
Context {W : Type} `{!Collaborators W}.

(** [synchronize] reads the candidates and hands the payload of their
    updates to the emitter. *)
Lemma synchronize_run (record_ids : list Z) (authority_ids : gmap string string)
    (dest_xml : string) (s : state W)
    (candidates : list (Z * option string)) (s1 : state W) :
  select_candidates record_ids s = (Ret candidates, s1) →
  synchronize record_ids authority_ids dest_xml s
  = emit (serialize (matched_updates authority_ids candidates)) dest_xml s1.
Proof.
  intros Hsel. unfold synchronize, mbind, M_bind, bindM.
  by rewrite (build_output_select _ _ "" _ _ _ Hsel).
Qed.

End Synchronize.

(** C8: in synchronize, when the candidates yield no update the run writes
    no file and submits nothing, its only report being the informational
    message; and when a step of the payload write (open, write or close)
    raises, the trace of the run holds no call of the task submission. *)
Theorem synchronize_write_before_submit {W : Type} `{!Collaborators W}
    (record_ids : list Z) (authority_ids : gmap string string)
    (dest_xml : string) (w : W) :
  let run := synchronize record_ids authority_ids dest_xml (w, []) in
  (∀ candidates s1,
      select_candidates record_ids (w, []) = (Ret candidates, s1) →
      matched_updates authority_ids candidates = [] →
      run = (Ret tt, (s1.1, s1.2 ++ [NO_UPDATES]))
      ∧ existsb is_file_write run.2.2 = false
      ∧ existsb is_submit run.2.2 = false)
  ∧ (existsb write_failed run.2.2 = true → existsb is_submit run.2.2 = false).
Proof.
  intros run.
  destruct (select_candidates_returns record_ids (w, [])) as (cs & s1 & Hsel & _).
  destruct (select_candidates_trace _ _ _ _ Hsel) as (evs0 & Htr & Hq).
  cbn [snd app] in Htr.
  assert (Hrun : run = emit (serialize (matched_updates authority_ids cs)) dest_xml s1)
    by apply (synchronize_run _ _ _ _ _ _ Hsel).
  split.
  - intros candidates s1' Hsel' Hnone.
    rewrite Hsel in Hsel'. injection Hsel' as <- <-.
    rewrite Hrun, Hnone. cbn [serialize foldr]. rewrite emit_empty. cbn [fst snd].
    split; [reflexivity|]. rewrite Htr, !existsb_app.
    rewrite (store_queries_only _ _ store_query_not_file_write Hq).
    by rewrite (store_queries_only _ _ store_query_not_submit Hq).
  - rewrite Hrun.
    destruct (emit_trace (serialize (matched_updates authority_ids cs)) dest_xml s1)
      as (evs & -> & Hfail & _).
    rewrite Htr, !existsb_app.
    rewrite (store_queries_only _ _ store_query_not_write_failed Hq).
    by rewrite (store_queries_only _ _ store_query_not_submit Hq).
Qed.

(** C8 in the sample world: record 2148050 yields no update, and the
    updates file of the read-only world cannot be opened. *)
Lemma synchronize_write_before_submit_witness :
  (let run := synchronize [2148050] Sample.authority_ids
                "/tmp/cds-records-updates.xml" (Sample.world, []) in
   run.1 = Ret tt ∧ existsb is_file_write run.2.2 = false
   ∧ existsb is_submit run.2.2 = false)
  ∧ (let run := synchronize [2108556] Sample.authority_ids
                  "/tmp/cds-records-updates.xml" (Sample.readonly_world, []) in
     existsb write_failed run.2.2 = true ∧ existsb is_submit run.2.2 = false).
Proof.
  split.
  - edestruct (proj1 (synchronize_write_before_submit [2148050] Sample.authority_ids
                        "/tmp/cds-records-updates.xml" Sample.world))
      as (Hrun & Hfile & Hsubmit); [reflexivity | reflexivity |].
    split; [by rewrite Hrun | by split].
  - split; [reflexivity|].
    apply (proj2 (synchronize_write_before_submit [2108556] Sample.authority_ids
                    "/tmp/cds-records-updates.xml" Sample.readonly_world)).
    reflexivity.
Defined.

(** C7: the payload synchronize builds is the concatenation of the fragments
    of a list of updates whose record ids all come from the input list, in
    the order of the input list (they are a subsequence of it), each
    occurrence of an input id giving at most one fragment; and a payload
    written to the file is this payload. *)
Theorem synchronize_payload_order {W : Type} `{!Collaborators W}
    (record_ids : list Z) (authority_ids : gmap string string)
    (dest_xml : string) (w : W) :
  ∃ candidates s1,
    select_candidates record_ids (w, []) = (Ret candidates, s1)
    ∧ candidates.*1 = record_ids
    ∧ let updates := matched_updates authority_ids candidates in
      build_output authority_ids "" record_ids (w, []) = (Ret (serialize updates), s1)
      ∧ (∀ path content r,
           FileWrite path content r
             ∈ (synchronize record_ids authority_ids dest_xml (w, [])).2.2 →
           path = dest_xml ∧ content = serialize updates)
      ∧ (∀ record_id, record_id ∈ updates.*1 → record_id ∈ record_ids)
      ∧ updates.*1 `sublist_of` record_ids
      ∧ (∀ record_id,
           length (filter (λ y, y = record_id) updates.*1)
           ≤ length (filter (λ y, y = record_id) record_ids))%nat
      ∧ (NoDup record_ids → NoDup updates.*1).
Proof.
  destruct (select_candidates_returns record_ids (w, [])) as (cs & s1 & Hsel & Hids).
  exists cs, s1. split; [done|]. split; [done|]. intros updates.
  assert (Hsub : updates.*1 `sublist_of` record_ids).
  { rewrite <- Hids. apply matched_updates_sublist. }
  split; [apply (build_output_select _ _ "" _ _ _ Hsel)|].
  split.
  { intros path content r.
    rewrite (synchronize_run _ _ _ _ _ _ Hsel). fold updates.
    destruct (emit_trace (serialize updates) dest_xml s1) as (evs & -> & _ & Hw & _).
    destruct (select_candidates_trace _ _ _ _ Hsel) as (evs0 & -> & Hq).
    cbn [snd app]. rewrite elem_of_app. intros [Hin|Hin]; [|by apply (Hw _ _ r)].
    rewrite Forall_forall in Hq. by apply Hq in Hin. }
  split; [intros record_id Hin; by eapply elem_of_sublist|].
  split; [done|].
  split; [intros record_id; by apply sublist_occurrences|].
  intros Hnodup. by eapply sublist_NoDup.
Qed.

(** The mapping of the sample dump is the sample mapping, and the dump with
    the internal id CERN-None gives a mapping with that key. *)
Lemma sample_mappings :
  collect_authority_ids Sample.dump = Sample.authority_ids
  ∧ collect_authority_ids Sample.none_dump = Sample.none_authority_ids.
Proof. split; reflexivity. Qed.

(** C2 (the code departs from the claim): a candidate without a key is
    looked up under the key CERN-None, the format of None. Record 2108557 of
    the keyless world has no CCID, get_ccid returns None for it, and with
    the mapping of a dump that holds the internal id CERN-None the loop of
    synchronize emits a fragment for it: one fragment for zero candidates
    with a key. *)
Theorem synchronize_keyless_candidate_emitted :
  (get_ccid 2108557 (Sample.keyless_world, [])).1 = Ret None
  ∧ (select_candidates [2108557] (Sample.keyless_world, [])).1 = Ret [(2108557, None)]
  ∧ with_key [(2108557, None)] = []
  ∧ collect_authority_ids Sample.none_dump = Sample.none_authority_ids
  ∧ (build_output Sample.none_authority_ids "" [2108557] (Sample.keyless_world, [])).1
    = Ret (record_format 2108557 "INSPIRE-00000001").
Proof. repeat split; reflexivity. Qed.

(** Without the key CERN-None in the mapping, the candidates without a key
    yield no update: the updates are those of the candidates with a key, and
    there are no more updates than such candidates. *)
Lemma matched_updates_with_key (authority_ids : gmap string string)
    (candidates : list (Z * option string)) :
  authority_ids !! "CERN-None" = None →
  matched_updates authority_ids candidates
  = matched_updates authority_ids (with_key candidates)
  ∧ (length (matched_updates authority_ids candidates)
     ≤ length (with_key candidates))%nat.
Proof.
  intros Hnone. unfold with_key.
  induction candidates as [|[record_id [cern_id|]] candidates [IHeq IHlen]];
    [done|..]; rewrite filter_cons; cbn [snd].
  - rewrite decide_True by done. rewrite !matched_updates_cons, <- IHeq.
    destruct (authority_ids !! (_ +:+ _)); cbn [length]; split; (done || lia).
  - rewrite decide_False by (by intros [? [=]]).
    rewrite matched_updates_cons. cbn [PyStr.format_opt].
    change ("CERN-" +:+ "None") with "CERN-None". by rewrite Hnone.
Qed.

(** ** The traversal of the parser *)

Lemma scan_datafield_inspire (inspire_id cern_id : option string) (datafield : node) :
  (scan_datafield (inspire_id, cern_id) datafield).1
  = if inspire_tagged datafield && has_subfield_a datafield
    then subfield_a_text datafield else inspire_id.
Proof.
  unfold scan_datafield, cern_tagged, inspire_tagged, carries_tag, has_subfield_a,
    subfield_a_text.
  destruct (Etree.nonempty (Etree.xpath_subfield_9 "INSPIRE" datafield));
    destruct (Etree.nonempty (Etree.xpath_subfield_9 "CERN" datafield));
    destruct (Etree.find_subfield_a datafield); reflexivity.
Qed.

Lemma scan_datafield_cern (inspire_id cern_id : option string) (datafield : node) :
  (scan_datafield (inspire_id, cern_id) datafield).2
  = if cern_tagged datafield && has_subfield_a datafield
    then subfield_a_text datafield else cern_id.
Proof.
  unfold scan_datafield, cern_tagged, inspire_tagged, carries_tag, has_subfield_a,
    subfield_a_text.
  destruct (Etree.nonempty (Etree.xpath_subfield_9 "INSPIRE" datafield));
    destruct (Etree.nonempty (Etree.xpath_subfield_9 "CERN" datafield));
    destruct (Etree.find_subfield_a datafield); reflexivity.
Qed.

(** After the inner loop each variable holds the [a] text of the last
    datafield of its branch that has an [a] subfield, or its initial value
    when there is no such datafield. *)
Lemma scan_datafields_last (ids : option string * option string)
    (datafields : list node) :
  fold_left scan_datafield datafields ids
  = (match last (filter (λ d, inspire_tagged d && has_subfield_a d) datafields) with
     | Some d => subfield_a_text d
     | None => ids.1
     end,
     match last (filter (λ d, cern_tagged d && has_subfield_a d) datafields) with
     | Some d => subfield_a_text d
     | None => ids.2
     end).
Proof.
  induction datafields as [|d datafields IH] using rev_ind.
  - by destruct ids.
  - rewrite fold_left_app, IH, !filter_app, !filter_cons, !filter_nil.
    cbn [fold_left].
    match goal with |- scan_datafield (?i, ?c) d = _ =>
      rewrite (surjective_pairing (scan_datafield (i, c) d));
      rewrite scan_datafield_inspire, scan_datafield_cern end.
    f_equal.
    + destruct (inspire_tagged d && has_subfield_a d).
      * rewrite decide_True by exact I. by rewrite last_snoc.
      * rewrite decide_False by (intros []). by rewrite app_nil_r.
    + destruct (cern_tagged d && has_subfield_a d).
      * rewrite decide_True by exact I. by rewrite last_snoc.
      * rewrite decide_False by (intros []). by rewrite app_nil_r.
Qed.

(** The two ids of a record: for each branch, the [a] text of the last
    datafield of the branch that has an [a] subfield. *)
Lemma scan_record_last (record : node) :
  scan_record record
  = (last_value (filter (λ d, inspire_tagged d && has_subfield_a d)
                        (Etree.xpath_datafield_035 record)),
     last_value (filter (λ d, cern_tagged d && has_subfield_a d)
                        (Etree.xpath_datafield_035 record))).
Proof.
  unfold scan_record, last_value. rewrite scan_datafields_last. cbn [fst snd].
  f_equal; by destruct (last _).
Qed.

(** The outer loop writes the entry of each record that has one. *)
Lemma add_record_entry (authority_ids : gmap string string) (record : node) :
  add_record authority_ids record = write_entry authority_ids record.
Proof.
  unfold add_record, write_entry, record_entry.
  destruct (scan_record record) as [[inspire_id|] [cern_id|]]; try reflexivity.
  by destruct (PyStr.truthy _ && PyStr.truthy _).
Qed.

Lemma collect_authority_ids_entries (root : node) :
  collect_authority_ids root = fold_left write_entry (Etree.children root) ∅.
Proof.
  unfold collect_authority_ids. generalize (∅ : gmap string string).
  induction (Etree.children root) as [|record records IH]; intros m; [done|].
  cbn [fold_left]. by rewrite add_record_entry, IH.
Qed.

(** A record has an entry exactly when both its ids are non-empty strings;
    the entry is keyed by the CERN id. *)
Lemma record_entry_spec (record : node) (cern_id inspire_id : string) :
  record_entry record = Some (cern_id, inspire_id)
  ↔ scan_record record = (Some inspire_id, Some cern_id)
    ∧ cern_id ≠ "" ∧ inspire_id ≠ "".
Proof.
  unfold record_entry.
  destruct (scan_record record) as [[i|] [c|]].
  - destruct i as [|a i], c as [|b c]; cbn; split;
      try (intros [= <- <-]; done); try (intros ([= <- <-] & ? & ?); done).
  - split; [done|]. by intros ([=] & _).
  - split; [done|]. by intros ([=] & _).
  - split; [done|]. by intros ([=] & _).
Qed.

(** The mapping after a run of records: a key holds the value of the last
    record that wrote it. *)
Lemma write_entries_last (before after : list node) (record : node)
    (cern_id inspire_id : string) (authority_ids : gmap string string) :
  record_entry record = Some (cern_id, inspire_id) →
  (∀ later k v, later ∈ after → record_entry later = Some (k, v) → k ≠ cern_id) →
  fold_left write_entry (before ++ record :: after) authority_ids !! cern_id
  = Some inspire_id.
Proof.
  intros Hentry Hafter. rewrite fold_left_app. cbn [fold_left].
  generalize (fold_left write_entry before authority_ids). intros m.
  unfold write_entry at 2. rewrite Hentry.
  assert (Hm : <[cern_id := inspire_id]> m !! cern_id = Some inspire_id)
    by apply lookup_insert_eq.
  revert Hm. generalize (<[cern_id := inspire_id]> m). clear m.
  induction after as [|later after IH]; intros m Hm; [done|].
  cbn [fold_left]. apply IH.
  - intros l k v Hin. apply Hafter. by right.
  - unfold write_entry. destruct (record_entry later) as [[k v]|] eqn:Hl; [|done].
    rewrite lookup_insert_ne; [done|]. eapply Hafter; [by left | done].
Qed.

(** Every entry of the mapping was written by a record of the list, or was
    there before. *)
Lemma write_entries_origin (records : list node) (authority_ids : gmap string string)
    (k v : string) :
  fold_left write_entry records authority_ids !! k = Some v →
  authority_ids !! k = Some v
  ∨ ∃ record, record ∈ records ∧ record_entry record = Some (k, v).
Proof.
  revert authority_ids.
  induction records as [|record records IH]; intros m; [by left|].
  cbn [fold_left]. intros [Hm|(r & Hin & Hr)]%IH.
  - unfold write_entry in Hm.
    destruct (record_entry record) as [[k' v']|] eqn:Hentry; [|by left].
    destruct (decide (k' = k)) as [->|Hne].
    + rewrite lookup_insert_eq in Hm. injection Hm as ->.
      right. exists record. split; [by left | done].
    + rewrite lookup_insert_ne in Hm by done. by left.
  - right. exists r. split; [by right | done].
Qed.

Lemma write_entries_none (records : list node) (authority_ids : gmap string string) :
  (∀ record, record ∈ records → record_entry record = None) →
  fold_left write_entry records authority_ids = authority_ids.
Proof.
  revert authority_ids.
  induction records as [|record records IH]; intros m Hnone; [done|].
  cbn [fold_left]. unfold write_entry at 2.
  rewrite (Hnone record) by (by left). apply IH. intros r Hr. apply Hnone. by right.
Qed.

Section Parse.
Context {W : Type} `{!Collaborators W}.

(** A well-formed document is parsed without a report, into the mapping
    of its tree. *)
Lemma parse_inspire_xml_well_formed (content : string) (root : node) (s : state W) :
  content ≠ "" → xml_parse content = inl root →
  parse_inspire_xml (Some content) s = (Ret (Some (collect_authority_ids root)), s).
Proof.
  intros Hcontent Hparse. unfold parse_inspire_xml, etree_fromstring.
  destruct content as [|a content]; [done|]. by rewrite Hparse.
Qed.

(** What the parser refuses is reported and gives [None]. *)
Lemma parse_inspire_xml_refused (xml_content : option string) (e : exn) (s : state W) :
  etree_fromstring xml_content = Raise e → is_parse_error e = true →
  parse_inspire_xml xml_content s
  = (Ret None,
     (s.1, s.2 ++ [WriteMessage ("Error: failed to parse XML content. ("
                                 +:+ exn_str e +:+ ")") Stderr])).
Proof.
  intros Hraise Herr. unfold parse_inspire_xml. by rewrite Hraise, Herr.
Qed.

End Parse.

(** C4 (counterexample to the claim as stated): in a record whose last
    INSPIRE datafield has no a subfield, that last datafield has no value,
    yet the scan keeps the value of the INSPIRE datafield before it and the
    record writes its entry with it; and in a record whose last CERN
    datafield also carries the INSPIRE tag, the a text of that datafield
    becomes the INSPIRE id and the CERN id stays the one captured before. So
    the last datafield of a tag does not always determine the value. *)
Lemma last_tagged_field_without_value :
  let bare := Sample.record_with_bare_field in
  let double := Sample.record_with_double_tag in
  last_value (filter (carries_tag "INSPIRE") (Etree.xpath_datafield_035 bare)) = None
  ∧ scan_record bare = (Some "INSPIRE-00146525", Some "CERN-389900")
  ∧ collect_authority_ids (Element "collection" [] None [bare] None)
    = Sample.authority_ids
  ∧ last_value (filter (carries_tag "CERN") (Etree.xpath_datafield_035 double))
    = Some "CERN-389901"
  ∧ scan_record double = (Some "CERN-389901", Some "CERN-389900")
  ∧ ¬ (∀ r, scan_record r
            = (last_value (filter (carries_tag "INSPIRE") (Etree.xpath_datafield_035 r)),
               last_value (filter (carries_tag "CERN") (Etree.xpath_datafield_035 r)))).
Proof.
  do 5 (split; [reflexivity|]).
  intros Hclaim. specialize (Hclaim Sample.record_with_bare_field). discriminate.
Qed.

(** C4 (amended): for a well-formed dump parse_inspire_xml returns the
    mapping in which each record with an entry wrote that one entry, in
    document order. The two ids of a record are, for each namespace, the a
    text of the last datafield tagged with it that has an a subfield (a
    datafield with both tags counts for INSPIRE only); the record has an
    entry exactly when both ids are non-empty, keyed by the CERN id; a key
    holds the value of the last record in document order that wrote it; and
    every entry was written by a record of the dump. *)
Theorem parse_inspire_xml_entries {W : Type} `{!Collaborators W}
    (content : string) (root : node) (s : state W) :
  content ≠ "" → xml_parse content = inl root →
  ∃ authority_ids,
    parse_inspire_xml (Some content) s = (Ret (Some authority_ids), s)
    ∧ authority_ids = fold_left write_entry (Etree.children root) ∅
    ∧ (∀ record,
         scan_record record
         = (last_value (filter (λ d, inspire_tagged d && has_subfield_a d)
                               (Etree.xpath_datafield_035 record)),
            last_value (filter (λ d, cern_tagged d && has_subfield_a d)
                               (Etree.xpath_datafield_035 record))))
    ∧ (∀ record cern_id inspire_id,
         record_entry record = Some (cern_id, inspire_id)
         ↔ scan_record record = (Some inspire_id, Some cern_id)
           ∧ cern_id ≠ "" ∧ inspire_id ≠ "")
    ∧ (∀ before record after cern_id inspire_id,
         Etree.children root = before ++ record :: after →
         record_entry record = Some (cern_id, inspire_id) →
         (∀ later k v, later ∈ after → record_entry later = Some (k, v) → k ≠ cern_id) →
         authority_ids !! cern_id = Some inspire_id)
    ∧ (∀ cern_id inspire_id,
         authority_ids !! cern_id = Some inspire_id →
         ∃ record, record ∈ Etree.children root
                   ∧ record_entry record = Some (cern_id, inspire_id)).
Proof.
  intros Hcontent Hparse. exists (collect_authority_ids root).
  split; [by apply parse_inspire_xml_well_formed|].
  split; [apply collect_authority_ids_entries|].
  split; [apply scan_record_last|].
  split; [apply record_entry_spec|].
  rewrite collect_authority_ids_entries. split.
  - intros before record after cern_id inspire_id -> Hentry Hafter.
    by apply write_entries_last.
  - intros cern_id inspire_id [Hempty|Hrecord]%write_entries_origin; [|done].
    by rewrite lookup_empty in Hempty.
Qed.

(** C4 on the sample dump: the entry of its second record. *)
Lemma parse_inspire_xml_entries_witness :
  ∃ authority_ids,
    parse_inspire_xml (Some Sample.dump_text) (Sample.world, [])
    = (Ret (Some authority_ids), (Sample.world, []))
    ∧ authority_ids !! "CERN-389900" = Some "INSPIRE-00146525".
Proof.
  destruct (parse_inspire_xml_entries Sample.dump_text Sample.dump (Sample.world, []))
    as (authority_ids & Hrun & _ & _ & _ & Hlast & _); [done | reflexivity |].
  exists authority_ids. split; [exact Hrun|].
  apply (Hlast [Sample.record
                  [Sample.datafield [Sample.subfield "9" "INSPIRE";
                                     Sample.subfield "a" "INSPIRE-00440376"]]]
               (Sample.record
                  [Sample.datafield [Sample.subfield "9" "CERN";
                                     Sample.subfield "a" "CERN-389900"];
                   Sample.datafield [Sample.subfield "9" "INSPIRE";
                                     Sample.subfield "a" "INSPIRE-00146525"]])
               []); [reflexivity | reflexivity |].
  intros later k v Hin. by apply elem_of_nil in Hin.
Defined.

(** A record one of whose ids is [None] or empty after the scan leaves the
    mapping as it is. *)
Lemma add_record_falsy (authority_ids : gmap string string) (record : node) :
  PyStr.truthy (scan_record record).1 && PyStr.truthy (scan_record record).2 = false →
  add_record authority_ids record = authority_ids.
Proof.
  unfold add_record.
  destruct (scan_record record) as [[inspire_id|] [cern_id|]]; cbn [fst snd];
    try reflexivity.
  by intros ->.
Qed.

(** C5: parse_inspire_xml returns None, with a report on stderr and without
    raising, for None, for the empty string and for content that is not well
    formed; it returns for every input; and for well-formed content none of
    whose records has an entry it returns the empty mapping, which is not
    None. *)
Theorem parse_inspire_xml_outcomes {W : Type} `{!Collaborators W} (s : state W) :
  (∃ msg, parse_inspire_xml None s
          = (Ret None, (s.1, s.2 ++ [WriteMessage msg Stderr])))
  ∧ (∃ msg, parse_inspire_xml (Some "") s
            = (Ret None, (s.1, s.2 ++ [WriteMessage msg Stderr])))
  ∧ (∀ content err,
       xml_parse content = inr err →
       ∃ msg, parse_inspire_xml (Some content) s
              = (Ret None, (s.1, s.2 ++ [WriteMessage msg Stderr])))
  ∧ (∀ xml_content, ∃ parsed s', parse_inspire_xml xml_content s = (Ret parsed, s'))
  ∧ (∀ content root,
       content ≠ "" → xml_parse content = inl root →
       (∀ record, record ∈ Etree.children root → record_entry record = None) →
       parse_inspire_xml (Some content) s = (Ret (Some ∅), s))
  ∧ Some (∅ : gmap string string) ≠ None.
Proof.
  assert (Hrefused : ∀ content err,
    xml_parse content = inr err →
    ∃ msg, parse_inspire_xml (Some content) s
           = (Ret None, (s.1, s.2 ++ [WriteMessage msg Stderr]))).
  { intros content err Hparse. destruct content as [|a content].
    - eexists. by apply (parse_inspire_xml_refused (Some "") (XMLSyntaxError "Document is empty")).
    - eexists. apply (parse_inspire_xml_refused _ (XMLSyntaxError err)); [|done].
      unfold etree_fromstring. by rewrite Hparse. }
  split; [eexists; by apply (parse_inspire_xml_refused None (ValueError "can only parse strings"))|].
  split; [eexists; by apply (parse_inspire_xml_refused (Some "") (XMLSyntaxError "Document is empty"))|].
  split; [exact Hrefused|].
  split.
  { intros [content|].
    - destruct (xml_parse content) as [root|err] eqn:Hparse.
      + destruct content as [|a content].
        * eexists _, _.
          by apply (parse_inspire_xml_refused (Some "") (XMLSyntaxError "Document is empty")).
        * eexists _, _. by apply (parse_inspire_xml_well_formed _ root).
      + destruct (Hrefused _ _ Hparse) as [msg ->]. by eexists _, _.
    - eexists _, _. by apply (parse_inspire_xml_refused None (ValueError "can only parse strings")). }
  split; [|done].
  intros content root Hcontent Hparse Hnone.
  rewrite (parse_inspire_xml_well_formed _ root) by done.
  by rewrite collect_authority_ids_entries, write_entries_none.
Qed.

(** C5 on the three inputs of tests.py: None, a document that is not well
    formed, and the empty record. *)
Lemma parse_inspire_xml_outcomes_witness :
  parse_inspire_xml None (Sample.world, []) 
  = (Ret None, (Sample.world,
                [WriteMessage "Error: failed to parse XML content. (can only parse strings)"
                              Stderr]))
  ∧ (∃ msg, parse_inspire_xml (Some ">record<") (Sample.world, [])
            = (Ret None, (Sample.world, [WriteMessage msg Stderr])))
  ∧ parse_inspire_xml (Some "<record></record>") (Sample.world, [])
    = (Ret (Some ∅), (Sample.world, [])).
Proof.
  pose proof (parse_inspire_xml_outcomes (Sample.world, []))
    as (_ & _ & Hrefused & _ & Hempty & _).
  split; [reflexivity|]. split.
  - apply (Hrefused ">record<" "syntax error"). reflexivity.
  - apply (Hempty "<record></record>" (Sample.record [])); [done | reflexivity |].
    intros record Hin. by apply elem_of_nil in Hin.
Defined.

(** C10: for a well-formed dump, no entry of the mapping parse_inspire_xml
    returns has an empty key or an empty value; and a record for which the
    scan leaves one of the two ids None or empty writes nothing. *)
Theorem parse_inspire_xml_no_empty_ids {W : Type} `{!Collaborators W}
    (content : string) (root : node) (s : state W) :
  content ≠ "" → xml_parse content = inl root →
  ∃ authority_ids,
    parse_inspire_xml (Some content) s = (Ret (Some authority_ids), s)
    ∧ (∀ cern_id inspire_id,
         authority_ids !! cern_id = Some inspire_id →
         cern_id ≠ "" ∧ inspire_id ≠ "")
    ∧ (∀ record m,
         PyStr.truthy (scan_record record).1
         && PyStr.truthy (scan_record record).2 = false →
         add_record m record = m).
Proof.
  intros Hcontent Hparse. exists (collect_authority_ids root).
  split; [by apply parse_inspire_xml_well_formed|].
  split; [|intros record m; apply add_record_falsy].
  intros cern_id inspire_id. rewrite collect_authority_ids_entries.
  intros [Hempty|(record & _ & Hentry)]%write_entries_origin.
  - by rewrite lookup_empty in Hempty.
  - by apply record_entry_spec in Hentry as (_ & ? & ?).
Qed.

(** C10 on the sample dump. *)
Lemma parse_inspire_xml_no_empty_ids_witness :
  ∃ authority_ids,
    parse_inspire_xml (Some Sample.dump_text) (Sample.world, [])
    = (Ret (Some authority_ids), (Sample.world, []))
    ∧ (∀ cern_id inspire_id,
         authority_ids !! cern_id = Some inspire_id →
         cern_id ≠ "" ∧ inspire_id ≠ "").
Proof.
  destruct (parse_inspire_xml_no_empty_ids Sample.dump_text Sample.dump
              (Sample.world, [])) as (authority_ids & Hrun & Hids & _);
    [done | reflexivity |].
  by exists authority_ids.
Defined.

(** ** The dump fetcher *)

Section Fetch.
Context {W : Type} `{!Collaborators W}.

(** The outcomes of reading the copy: [None] when the open or the read
    raises an [IOError], the content when all three calls return. *)
Lemma read_copy_outcomes (dest_gz_tmp : string) (s : state W) :
  (∀ msg w1, gzip_open dest_gz_tmp s.1 = (Raise (IOError msg), w1) →
             (read_copy dest_gz_tmp s).1 = Ret None)
  ∧ (∀ msg w1 w2, gzip_open dest_gz_tmp s.1 = (Ret tt, w1) →
                  gzip_read dest_gz_tmp w1 = (Raise (IOError msg), w2) →
                  (read_copy dest_gz_tmp s).1 = Ret None)
  ∧ (∀ content w1 w2 w3, gzip_open dest_gz_tmp s.1 = (Ret tt, w1) →
                         gzip_read dest_gz_tmp w1 = (Ret content, w2) →
                         gzip_close dest_gz_tmp w2 = (Ret tt, w3) →
                         (read_copy dest_gz_tmp s).1 = Ret (Some content)).
Proof.
  destruct s as [w tr]. unfold read_copy. unfold_M. cbn [fst snd].
  repeat split.
  - intros msg w1 ->. reflexivity.
  - intros msg w1 w2 -> . cbn [fst snd]. intros ->. reflexivity.
  - intros content w1 w2 w3 ->. cbn [fst snd]. intros ->. cbn [fst snd].
    intros ->. reflexivity.
Qed.

(** After the read, the removal is attempted whatever the read returned,
    and the value returned is the one the read returned when the removal
    returns or raises an [OSError]. *)
Lemma remove_after_read (dest_gz_tmp : string) (xml : option string) (s : state W) :
  let run := (remove_copy dest_gz_tmp;; mret xml) s in
  let removed := (os_remove dest_gz_tmp s.1).1 in
  OsRemove dest_gz_tmp removed ∈ run.2.2
  ∧ (is_OSError_or_returned removed = true → run.1 = Ret xml).
Proof.
  destruct s as [w tr]. unfold remove_copy. unfold_M. cbn [fst snd].
  destruct (os_remove dest_gz_tmp w) as [[[]|e] w'] eqn:Hremove; cbn [fst snd].
  - split; [|done]. apply elem_of_app. right. by left.
  - unfold is_OSError_or_returned.
    destruct (is_OSError e); cbn [fst snd].
    + split; [|done]. rewrite !elem_of_app. left. right. by left.
    + split; [|done]. apply elem_of_app. right. by left.
Qed.

(** After a copy that returned, [get_inspire_dump] is the read followed
    by the removal. *)
Lemma get_inspire_dump_copied (src dest_gz_tmp : string) (w w1 : W)
    (tr : list event) (xml : option string) (s2 : state W) :
  urlretrieve src dest_gz_tmp w = (Ret tt, w1) →
  read_copy dest_gz_tmp (w1, tr ++ [Urlretrieve src dest_gz_tmp (Ret tt)])
  = (Ret xml, s2) →
  get_inspire_dump src dest_gz_tmp (w, tr)
  = (remove_copy dest_gz_tmp;; mret xml) s2.
Proof.
  intros Hcopy Hread. unfold get_inspire_dump.
  unfold mbind, M_bind, bindM, attempt, call. cbn [fst snd].
  by rewrite Hcopy, Hread.
Qed.

End Fetch.

(** C3 (counterexample to the claim as stated): without a network the copy
    raises an IOError, get_inspire_dump returns None, and its trace holds no
    attempt to remove the transient path. *)
Lemma transport_failure_skips_removal :
  let run := get_inspire_dump SYNC_URL_INSPIRE_RECORDS_SRC
               "/tmp/HepNames-records.xml.gz" (Sample.offline_world, []) in
  run.1 = Ret None
  ∧ run.2.2 = [Urlretrieve SYNC_URL_INSPIRE_RECORDS_SRC "/tmp/HepNames-records.xml.gz"
                 (Raise (IOError "Name or service not known"));
               WriteMessage
                 ("Error: failed to copy '" +:+ SYNC_URL_INSPIRE_RECORDS_SRC
                  +:+ "' to '/tmp/HepNames-records.xml.gz'. (Name or service not known)")
                 Stderr]
  ∧ existsb (is_remove "/tmp/HepNames-records.xml.gz") run.2.2 = false
  ∧ ¬ (∀ (w : Fake.world) (src dest_gz_tmp : string),
         existsb (is_remove dest_gz_tmp)
                 (get_inspire_dump src dest_gz_tmp (w, [])).2.2 = true).
Proof.
  split; [reflexivity|]. split; [reflexivity|]. split; [reflexivity|].
  intros Hclaim.
  specialize (Hclaim Sample.offline_world SYNC_URL_INSPIRE_RECORDS_SRC
                     "/tmp/HepNames-records.xml.gz").
  discriminate.
Qed.

(** C3 (amended): when the copy raises an IOError, get_inspire_dump returns
    None at once and attempts no removal. On the exit paths after a copy
    that returned, whatever the read of the copy returned (None after an
    IOError of the open or of the read, the content after a read that went
    through), the removal of dest_gz_tmp is attempted before the function
    returns, and when the removal returns or raises an OSError the function
    returns what the read returned. *)
Theorem get_inspire_dump_removal {W : Type} `{!Collaborators W}
    (src dest_gz_tmp : string) (w : W) :
  let run := get_inspire_dump src dest_gz_tmp (w, []) in
  (∀ msg w1,
      urlretrieve src dest_gz_tmp w = (Raise (IOError msg), w1) →
      run.1 = Ret None ∧ existsb (is_remove dest_gz_tmp) run.2.2 = false)
  ∧ (∀ w1 xml s2,
      urlretrieve src dest_gz_tmp w = (Ret tt, w1) →
      read_copy dest_gz_tmp (w1, [Urlretrieve src dest_gz_tmp (Ret tt)]) = (Ret xml, s2) →
      let removed := (os_remove dest_gz_tmp s2.1).1 in
      OsRemove dest_gz_tmp removed ∈ run.2.2
      ∧ (is_OSError_or_returned removed = true → run.1 = Ret xml))
  ∧ (∀ s : state W,
      (∀ msg w1, gzip_open dest_gz_tmp s.1 = (Raise (IOError msg), w1) →
                 (read_copy dest_gz_tmp s).1 = Ret None)
      ∧ (∀ msg w1 w2, gzip_open dest_gz_tmp s.1 = (Ret tt, w1) →
                      gzip_read dest_gz_tmp w1 = (Raise (IOError msg), w2) →
                      (read_copy dest_gz_tmp s).1 = Ret None)
      ∧ (∀ content w1 w2 w3, gzip_open dest_gz_tmp s.1 = (Ret tt, w1) →
                             gzip_read dest_gz_tmp w1 = (Ret content, w2) →
                             gzip_close dest_gz_tmp w2 = (Ret tt, w3) →
                             (read_copy dest_gz_tmp s).1 = Ret (Some content))).
Proof.
  intros run. split; [|split; [|apply read_copy_outcomes]].
  - intros msg w1 Hcopy. subst run. unfold get_inspire_dump. unfold_M.
    cbn [fst snd]. rewrite Hcopy. cbn. done.
  - intros w1 xml s2 Hcopy Hread removed. subst run removed.
    rewrite (get_inspire_dump_copied _ _ _ _ [] _ _ Hcopy Hread).
    apply (remove_after_read dest_gz_tmp xml s2).
Qed.

(** C3 in three worlds: the dump is fetched and the copy removed; the copy is
    not gzip data and cannot be removed; there is no network. *)
Lemma get_inspire_dump_removal_witness :
  (let run := get_inspire_dump SYNC_URL_INSPIRE_RECORDS_SRC
                "/tmp/HepNames-records.xml.gz" (Sample.world, []) in
   OsRemove "/tmp/HepNames-records.xml.gz" (Ret tt) ∈ run.2.2
   ∧ run.1 = Ret (Some Sample.dump_text))
  ∧ (let run := get_inspire_dump SYNC_URL_INSPIRE_RECORDS_SRC
                  "/tmp/HepNames-records.xml.gz" (Sample.garbled_world, []) in
     OsRemove "/tmp/HepNames-records.xml.gz"
              (Raise (OSError "Operation not permitted")) ∈ run.2.2
     ∧ run.1 = Ret None)
  ∧ (let run := get_inspire_dump SYNC_URL_INSPIRE_RECORDS_SRC
                  "/tmp/HepNames-records.xml.gz" (Sample.offline_world, []) in
     run.1 = Ret None
     ∧ existsb (is_remove "/tmp/HepNames-records.xml.gz") run.2.2 = false).
Proof.
  split; [|split].
  - edestruct (proj1 (proj2 (get_inspire_dump_removal SYNC_URL_INSPIRE_RECORDS_SRC
                               "/tmp/HepNames-records.xml.gz" Sample.world)))
      as [Hremoved Hvalue]; [reflexivity | reflexivity |].
    split; [exact Hremoved | by apply Hvalue].
  - edestruct (proj1 (proj2 (get_inspire_dump_removal SYNC_URL_INSPIRE_RECORDS_SRC
                               "/tmp/HepNames-records.xml.gz" Sample.garbled_world)))
      as [Hremoved Hvalue]; [reflexivity | reflexivity |].
    split; [exact Hremoved | by apply Hvalue].
  - eapply (proj1 (get_inspire_dump_removal SYNC_URL_INSPIRE_RECORDS_SRC
                     "/tmp/HepNames-records.xml.gz" Sample.offline_world)).
    reflexivity.
Defined.

(** ** The orchestrator *)

Section Orchestrator.
Context {W : Type} `{!Collaborators W}.

(** The fetcher only adds to the trace, and nothing that is a query of the
    record store, a write of the payload or a submission. *)
Lemma get_inspire_dump_trace (src dest_gz_tmp : string) (s : state W) :
  ∃ evs, (get_inspire_dump src dest_gz_tmp s).2.2 = s.2 ++ evs
         ∧ Forall (λ ev, before_selection ev = true) evs.
Proof.
  destruct s as [w tr]. unfold get_inspire_dump, read_copy, remove_copy. unfold_M.
  run_call (urlretrieve src dest_gz_tmp); [|destruct (is_IOError _)].
  1: run_call (gzip_open dest_gz_tmp); [|destruct (is_IOError _)].
  1: run_call (gzip_read dest_gz_tmp); [|destruct (is_IOError _)].
  1: run_call (gzip_close dest_gz_tmp); [|destruct (is_IOError _)].
  all: try (run_call (os_remove dest_gz_tmp); [|destruct (is_OSError _)]).
  all: cbn [fst snd]; rewrite <- ?app_assoc; cbn [app];
    eexists; (split; [reflexivity|]); by repeat constructor.
Qed.

(** The parser reads nothing of the world: its value depends on the
    content only, and it adds at most a report to the trace. *)
Lemma parse_inspire_xml_pure (xml_content : option string) :
  ∃ parsed evs,
    Forall (λ ev, before_selection ev = true) evs
    ∧ ∀ s : state W, parse_inspire_xml xml_content s = (parsed, (s.1, s.2 ++ evs)).
Proof.
  unfold parse_inspire_xml.
  destruct (etree_fromstring xml_content) as [root|e]; [|destruct (is_parse_error e)].
  - exists (Ret (Some (collect_authority_ids root))), [].
    split; [done|]. intros [w tr]. unfold_M. cbn. by rewrite app_nil_r.
  - eexists (Ret None), [_]. split; cycle 1; [by intros [w tr]|].
    by repeat constructor.
  - exists (Raise e), []. split; [done|]. intros [w tr]. unfold_M. cbn.
    by rewrite app_nil_r.
Qed.

(** The candidates read from a record store that answers as [values] says
    are the candidates of [values]. *)
Lemma select_candidates_answers (record_ids : list Z) (s : state W)
    (candidates : list (Z * option string)) (s' : state W) :
  select_candidates record_ids s = (Ret candidates, s') →
  ∃ evs, s'.2 = s.2 ++ evs
         ∧ ∀ ids values, Forall (store_answers ids values) evs →
                         candidates = candidates_of values record_ids.
Proof.
  revert s candidates.
  induction record_ids as [|record_id rest IH]; intros s candidates.
  - intros [= <- <-]. exists []. by rewrite app_nil_r.
  - cbn [select_candidates]. unfold mbind, M_bind, bindM.
    rewrite get_ccid_run.
    match goal with |- context [select_candidates rest ?s1] =>
      destruct (select_candidates_returns rest s1) as (cs & s2 & Hcs & _) end.
    rewrite Hcs. intros [= <- <-].
    destruct (IH _ _ Hcs) as (evs & -> & Hanswers).
    eexists (_ :: evs). cbn [snd]. rewrite <- app_assoc.
    split; [reflexivity|].
    intros ids values [Hhere Hrest]%Forall_cons. cbn [store_answers] in Hhere.
    cbn [candidates_of map]. by rewrite Hhere, (Hanswers ids values Hrest).
Qed.

End Orchestrator.

Lemma before_selection_quiet (evs : list event) :
  Forall (λ ev, before_selection ev = true) evs → Forall quiet evs.
Proof.
  intros Hevs. eapply Forall_impl; [exact Hevs|].
  intros ev. unfold quiet. by destruct ev.
Qed.

Lemma store_query_quiet (evs : list event) :
  Forall (λ ev, is_store_query ev = true) evs → Forall quiet evs.
Proof.
  intros Hevs. eapply Forall_impl; [exact Hevs|].
  intros ev. unfold quiet. by destruct ev.
Qed.

Lemma quiet_trace (evs : list event) :
  Forall quiet evs →
  existsb is_file_write evs = false ∧ existsb is_submit evs = false.
Proof.
  induction 1 as [|ev evs [Hw Hs] _ [IHw IHs]]; [done|].
  cbn. by rewrite Hw, Hs, IHw, IHs.
Qed.

Section Runs.
Context {W : Type} `{!Collaborators W}.

(** A run of the tasklet whose record store answers as [ids] and [values]
    say: either it ends, with nothing written or submitted so far, in the
    emitter applied to the payload of the expected updates, or there are
    no expected updates and it writes and submits nothing. *)
Lemma run_expected_updates (url tmp_dir : string) (w : W)
    (ids : list Z) (values : Z → list string) :
  let run := bst_inspire_authority_ids_synchronizer url tmp_dir (w, []) in
  let fetched :=
    (get_inspire_dump url
       (os_path_join tmp_dir SYNC_LOCAL_INSPIRE_RECORDS_FILE_NAME) (w, [])).1 in
  Forall (store_answers ids values) run.2.2 →
  match expected_updates fetched ids values with
  | Some updates =>
      ∃ s, run = emit (serialize updates)
                   (os_path_join tmp_dir SYNC_LOCAL_CDS_RECORDS_UPDATES_FILE_NAME) s
           ∧ Forall quiet s.2
  | None => Forall quiet run.2.2
  end.
Proof.
  intros run fetched.
  assert (Hrun : run = bst_inspire_authority_ids_synchronizer url tmp_dir (w, []))
    by reflexivity.
  clearbody run. subst fetched.
  unfold bst_inspire_authority_ids_synchronizer in Hrun.
  set (dump := os_path_join tmp_dir SYNC_LOCAL_INSPIRE_RECORDS_FILE_NAME) in *.
  set (dest_xml := os_path_join tmp_dir SYNC_LOCAL_CDS_RECORDS_UPDATES_FILE_NAME) in *.
  destruct (get_inspire_dump_trace url dump (w, [])) as (evs0 & Htr0 & Hq0).
  apply before_selection_quiet in Hq0.
  unfold mbind at 1 in Hrun. unfold M_bind, bindM in Hrun.
  destruct (get_inspire_dump url dump (w, [])) as [[xml|e] [w0 tr0]];
    cbn [fst snd app] in *; subst tr0; [|by subst run].
  destruct (parse_inspire_xml_pure xml) as (parsed & pevs & Hqp & Hparse).
  apply before_selection_quiet in Hqp.
  unfold mbind at 1 in Hrun. unfold M_bind, bindM in Hrun.
  rewrite Hparse in Hrun. cbn [fst snd] in Hrun.
  assert (Hparsed : parsed = match etree_fromstring xml with
                             | Ret root => Ret (Some (collect_authority_ids root))
                             | Raise e => if is_parse_error e then Ret None else Raise e
                             end).
  { specialize (Hparse (w0, [])). unfold parse_inspire_xml in Hparse.
    destruct (etree_fromstring xml) as [root|e]; [by injection Hparse|].
    destruct (is_parse_error e); by injection Hparse. }
  unfold expected_updates.
  destruct (etree_fromstring xml) as [root|e]; subst parsed;
    [|destruct (is_parse_error e); subst run; intros _; by apply Forall_app].
  case_bool_decide as Hmapping; cbn [andb];
    [|subst run; intros _; by apply Forall_app].
  unfold get_record_ids, query in Hrun. unfold_M_in Hrun. cbn [fst snd] in Hrun.
  destruct (perform_request_search "CERN People" w0) as [ids' w1].
  cbn [fst snd] in Hrun.
  destruct ids' as [|record_id ids']; cbn [Etree.nonempty] in Hrun.
  - subst run. cbn [fst snd]. intros Hall.
    assert (Hsearch : store_answers ids values (PerformRequestSearch "CERN People" [])).
    { rewrite Forall_forall in Hall. apply Hall.
      rewrite !elem_of_app, !elem_of_cons. intuition. }
    cbn [store_answers] in Hsearch. subst ids. cbn [Etree.nonempty].
    repeat (apply Forall_app; split); by repeat constructor.
  - match type of Hrun with context [synchronize ?rids ?m ?d ?s] =>
      destruct (select_candidates_returns rids s) as (cs & s1 & Hsel & _);
      rewrite (synchronize_run rids m d s cs s1 Hsel) in Hrun;
      destruct (select_candidates_answers rids s cs s1 Hsel) as (evs & Htr & Hcs);
      destruct (select_candidates_trace rids s cs s1 Hsel) as (evs' & Htr' & Hq)
    end.
    rewrite Htr in Htr'. apply app_inv_head in Htr'. subst evs'.
    apply store_query_quiet in Hq.
    destruct (emit_trace (serialize (matched_updates (collect_authority_ids root) cs))
                dest_xml s1) as (eevs & Hemit & _).
    rewrite <- Hrun in Hemit. rewrite Hemit, Htr. cbn [snd]. intros Hall.
    assert (Hsearch : store_answers ids values
                        (PerformRequestSearch "CERN People" (record_id :: ids'))).
    { rewrite Forall_forall in Hall. apply Hall.
      rewrite !elem_of_app, !elem_of_cons. intuition. }
    assert (Hanswers : Forall (store_answers ids values) evs).
    { rewrite !Forall_app in Hall. intuition. }
    cbn [store_answers] in Hsearch. subst ids. cbn [Etree.nonempty].
    rewrite (Hcs _ _ Hanswers) in Hrun. exists s1. split; [done|].
    rewrite Htr. cbn [snd].
    repeat (apply Forall_app; split); try done; by repeat constructor.
Qed.

End Runs.

(** No payload is written in a quiet trace. *)
Lemma quiet_no_file_write (evs : list event) (path content : string) (r : result unit) :
  Forall quiet evs → FileWrite path content r ∉ evs.
Proof.
  intros Hq Hin. rewrite Forall_forall in Hq. by destruct (Hq _ Hin) as [[=] _].
Qed.

(** C9: two runs of the tasklet from any two worlds (the second may be the
    world the first run left) in which the fetcher returns the same dump
    content and the record store gives the same answers (the id list ids,
    the field values values of each id) hand the emitter the payload of the
    same updates, the expected updates of the dump and of the answers, so
    that every payload written in either run is that payload; or, when there
    are no expected updates, neither run writes or submits anything. *)
Theorem runs_same_updates {W : Type} `{!Collaborators W}
    (url tmp_dir : string) (w1 w2 : W) (ids : list Z) (values : Z → list string) :
  let dump := os_path_join tmp_dir SYNC_LOCAL_INSPIRE_RECORDS_FILE_NAME in
  let dest_xml := os_path_join tmp_dir SYNC_LOCAL_CDS_RECORDS_UPDATES_FILE_NAME in
  let run1 := bst_inspire_authority_ids_synchronizer url tmp_dir (w1, []) in
  let run2 := bst_inspire_authority_ids_synchronizer url tmp_dir (w2, []) in
  (get_inspire_dump url dump (w1, [])).1 = (get_inspire_dump url dump (w2, [])).1 →
  Forall (store_answers ids values) run1.2.2 →
  Forall (store_answers ids values) run2.2.2 →
  match expected_updates (get_inspire_dump url dump (w1, [])).1 ids values with
  | Some updates =>
      (∃ s1, run1 = emit (serialize updates) dest_xml s1 ∧ Forall quiet s1.2)
      ∧ (∃ s2, run2 = emit (serialize updates) dest_xml s2 ∧ Forall quiet s2.2)
      ∧ (∀ path content r,
           FileWrite path content r ∈ run1.2.2 ++ run2.2.2 →
           path = dest_xml ∧ content = serialize updates)
  | None => Forall quiet run1.2.2 ∧ Forall quiet run2.2.2
  end.
Proof.
  intros dump dest_xml run1 run2 Hdump Hstore1 Hstore2.
  pose proof (run_expected_updates url tmp_dir w1 ids values Hstore1) as H1.
  pose proof (run_expected_updates url tmp_dir w2 ids values Hstore2) as H2.
  fold dump dest_xml run1 in H1. fold dump dest_xml run2 in H2.
  rewrite <- Hdump in H2.
  destruct (expected_updates _ ids values) as [updates|]; [|done].
  destruct H1 as (s1 & Hrun1 & Hq1), H2 as (s2 & Hrun2 & Hq2).
  split; [by exists s1|]. split; [by exists s2|].
  intros path content r. rewrite Hrun1, Hrun2.
  destruct (emit_trace (serialize updates) dest_xml s1) as (evs1 & -> & _ & Hw1 & _).
  destruct (emit_trace (serialize updates) dest_xml s2) as (evs2 & -> & _ & Hw2 & _).
  rewrite !elem_of_app. intros [[Hin|Hin]|[Hin|Hin]].
  - by apply quiet_no_file_write in Hin.
  - by apply (Hw1 _ _ r).
  - by apply quiet_no_file_write in Hin.
  - by apply (Hw2 _ _ r).
Qed.

(** C9 for two runs in a row from the sample world: the second run starts
    in the world the first one left, with the updates file written and one
    task in the queue. *)
Lemma runs_same_updates_witness :
  let run1 := bst_inspire_authority_ids_synchronizer
                SYNC_URL_INSPIRE_RECORDS_SRC "/tmp" (Sample.world, []) in
  let run2 := bst_inspire_authority_ids_synchronizer
                SYNC_URL_INSPIRE_RECORDS_SRC "/tmp" (run1.2.1, []) in
  let updates := [(2108556, "INSPIRE-00146525")] in
  (∃ s1, run1 = emit (serialize updates) "/tmp/cds-records-updates.xml" s1
         ∧ Forall quiet s1.2)
  ∧ (∃ s2, run2 = emit (serialize updates) "/tmp/cds-records-updates.xml" s2
           ∧ Forall quiet s2.2)
  ∧ (∀ path content r,
       FileWrite path content r ∈ run1.2.2 ++ run2.2.2 →
       path = "/tmp/cds-records-updates.xml" ∧ content = serialize updates).
Proof.
  intros run1 run2 updates.
  pose proof (runs_same_updates SYNC_URL_INSPIRE_RECORDS_SRC "/tmp"
                Sample.world run1.2.1 [2108556; 2148049]
                (λ recid, default [] (Fake.fields Sample.world !! recid))) as Hruns.
  cbv zeta in Hruns.
  assert (Hexpected :
    expected_updates
      (get_inspire_dump SYNC_URL_INSPIRE_RECORDS_SRC
         (os_path_join "/tmp" SYNC_LOCAL_INSPIRE_RECORDS_FILE_NAME)
         (Sample.world, [])).1
      [2108556; 2148049]
      (λ recid, default [] (Fake.fields Sample.world !! recid))
    = Some updates) by reflexivity.
  rewrite Hexpected in Hruns. apply Hruns.
  - reflexivity.
  - vm_compute. repeat constructor.
  - vm_compute. repeat constructor.
Defined.


(** ** More on the scan of [get_ccid] *)

(** Without an INSPIRE marker the loop ends with the key of the last value
    that has the CCID marker, or with the value it started from. *)
Lemma get_ccid_loop_last (cern_id : option string) (values : list string) :
  no_inspire_marker values →
  get_ccid_loop cern_id values
  = match last (ccid_values values) with
    | Some v => Some (ccid_key v)
    | None => cern_id
    end.
Proof.
  intros Hvalues. revert cern_id. unfold ccid_values.
  induction Hvalues as [|v values Hv _ IH]; intros cern_id; [done|].
  cbn [get_ccid_loop]. rewrite Hv, filter_cons.
  destruct (PyStr.startswith v CCID_MARKER) eqn:Hccid.
  - rewrite decide_True by exact I. rewrite last_cons.
    destruct (PyStr.partition v CCID_MARKER) as [[? ?] key] eqn:Hkey.
    rewrite IH. destruct (last _); [done|].
    unfold ccid_key. by rewrite Hkey.
  - rewrite decide_False by (intros []). apply IH.
Qed.

(** Every key the loop sets is what follows the CCID marker in one of the
    values. *)
Lemma get_ccid_loop_origin (cern_id : option string) (values : list string)
    (key : string) :
  get_ccid_loop cern_id values = Some key →
  cern_id = Some key ∨ (CCID_MARKER +:+ key) ∈ values.
Proof.
  revert cern_id. induction values as [|v values IH]; intros cern_id; [by left|].
  cbn [get_ccid_loop].
  destruct (PyStr.startswith v INSPIRE_MARKER); [by left|].
  destruct (PyStr.startswith v CCID_MARKER) eqn:Hccid.
  - apply startswith_inv in Hccid as [tail ->]. rewrite partition_prefix.
    intros [[= ->]|Hin]%IH; right; [by left | by right].
  - intros [->|Hin]%IH; [by left | right; by right].
Qed.

(** X1: when no value of field 035__a of a record has the INSPIRE marker,
    get_ccid returns the key of the last value with the CCID marker (a later
    CCID replaces an earlier one), and None when no value has that marker. *)
Theorem get_ccid_last_ccid_wins {W : Type} `{!Collaborators W}
    (record_id : Z) (s : state W) :
  no_inspire_marker (get_fieldvalues record_id "035__a" s.1).1 →
  (get_ccid record_id s).1
  = Ret (ccid_key <$> last (ccid_values (get_fieldvalues record_id "035__a" s.1).1)).
Proof.
  intros Hvalues. rewrite get_ccid_run. cbn [fst].
  unfold get_ccid_of_values. rewrite get_ccid_loop_last by done.
  by destruct (last _).
Qed.

(** X1 on a record with two CCID values and on a record with none. *)
Lemma get_ccid_last_ccid_wins_witness :
  (get_ccid 2108556 (Script.two_ccids, [])).1 = Ret (Some "646446")
  ∧ (get_ccid 2108557 (Sample.keyless_world, [])).1 = Ret None.
Proof.
  assert (Htwo : no_inspire_marker
                   ["AUTHOR|(SzGeCERN)389900"; "AUTHOR|(ORCID)0000-0002-1825-0097";
                    "AUTHOR|(SzGeCERN)646446"]) by repeat constructor.
  assert (Hnone : no_inspire_marker ["AUTHOR|(ORCID)0000-0002-1825-0097"])
    by repeat constructor.
  split.
  - exact (get_ccid_last_ccid_wins 2108556 (Script.two_ccids, []) Htwo).
  - exact (get_ccid_last_ccid_wins 2108557 (Sample.keyless_world, []) Hnone).
Defined.

(** X2: get_ccid reads the values of field 035__a up to the first one with
    the INSPIRE marker and no further: it returns the key of the last CCID
    value before that one (None when there is none), whatever the values
    after it are. *)
Theorem get_ccid_stops_at_inspire {W : Type} `{!Collaborators W}
    (record_id : Z) (s : state W)
    (before : list string) (marked : string) (after : list string) :
  (get_fieldvalues record_id "035__a" s.1).1 = before ++ marked :: after →
  no_inspire_marker before →
  PyStr.startswith marked INSPIRE_MARKER = true →
  (get_ccid record_id s).1 = Ret (ccid_key <$> last (ccid_values before)).
Proof.
  intros Hvalues Hbefore Hmarked. rewrite get_ccid_run. cbn [fst].
  rewrite Hvalues. unfold get_ccid_of_values.
  rewrite get_ccid_loop_break, get_ccid_loop_last by done.
  by destruct (last _).
Qed.

(** X2 on record 2148049 of the sample world: the CCID value before the
    INSPIRE value gives the key. *)
Lemma get_ccid_stops_at_inspire_witness :
  (get_ccid 2148049 (Sample.world, [])).1 = Ret (Some "646446").
Proof.
  apply (get_ccid_stops_at_inspire 2148049 (Sample.world, [])
           ["AUTHOR|(SzGeCERN)646446"] "AUTHOR|(INSPIRE)INSPIRE-00198527" []).
  - reflexivity.
  - repeat constructor.
  - reflexivity.
Defined.

(** X3: a key get_ccid returns is never made up: the CCID marker followed by
    the key is one of the values of field 035__a of the record. *)
Theorem get_ccid_key_origin {W : Type} `{!Collaborators W}
    (record_id : Z) (s : state W) (key : string) :
  (get_ccid record_id s).1 = Ret (Some key) →
  (CCID_MARKER +:+ key) ∈ (get_fieldvalues record_id "035__a" s.1).1.
Proof.
  rewrite get_ccid_run. cbn [fst]. intros [= Hkey].
  by apply get_ccid_loop_origin in Hkey as [[=]|Hin].
Qed.

(** X3 on record 2108556 of the sample world. *)
Lemma get_ccid_key_origin_witness :
  "AUTHOR|(SzGeCERN)389900" ∈ (get_fieldvalues 2108556 "035__a" Sample.world).1.
Proof.
  apply (get_ccid_key_origin 2108556 (Sample.world, []) "389900"). reflexivity.
Defined.


(** ** More on [synchronize] *)

Section Queries.
Context {W : Type} `{!Collaborators W}.

(** Reading the candidates makes one field query per record id, in the order
    of the list, and the candidates are those the answers give. *)
Lemma select_candidates_queries (record_ids : list Z) (s : state W) :
  ∃ answers s',
    length answers = length record_ids
    ∧ select_candidates record_ids s = (Ret (candidates_from record_ids answers), s')
    ∧ s'.2 = s.2 ++ field_queries record_ids answers.
Proof.
  revert s. induction record_ids as [|record_id rest IH]; intros s.
  - exists [], s. repeat split. by rewrite app_nil_r.
  - cbn [select_candidates]. unfold mbind, M_bind, bindM. rewrite get_ccid_run.
    match goal with |- context [select_candidates rest ?s1] =>
      destruct (IH s1) as (answers & s' & Hlen & -> & Htr) end.
    exists ((get_fieldvalues record_id "035__a" s.1).1 :: answers), s'.
    split; [cbn; by rewrite Hlen|]. split; [done|].
    rewrite Htr. cbn [snd]. by rewrite <- app_assoc.
Qed.

(** The emitter makes no query of the record store. *)
Lemma emit_no_store_query (output dest_xml : string) (s : state W) :
  ∃ evs, (emit output dest_xml s).2.2 = s.2 ++ evs
         ∧ Forall (λ ev, is_store_query ev = false) evs.
Proof.
  destruct s as [w tr]. unfold emit, with_open. case_bool_decide.
  2:{ eexists [_]. split; [reflexivity|]. by repeat constructor. }
  unfold_M.
  run_call (file_open dest_xml); [|destruct (is_EnvironmentError _)].
  1: run_call (file_write dest_xml output); run_call (file_close dest_xml);
     try (run_call (task_low_level_submission (bibupload_args dest_xml)));
     try destruct (is_EnvironmentError _).
  all: cbn [fst snd]; rewrite <- ?app_assoc; cbn [app];
    eexists; (split; [reflexivity|]); by repeat constructor.
Qed.

End Queries.

Lemma filter_store_queries_all (evs : list event) :
  Forall (λ ev, is_store_query ev = true) evs →
  filter (λ ev, is_store_query ev) evs = evs.
Proof.
  induction 1 as [|ev evs Hev _ IH]; [done|].
  rewrite filter_cons, decide_True by (rewrite Hev; exact I). by rewrite IH.
Qed.

Lemma filter_store_queries_none (evs : list event) :
  Forall (λ ev, is_store_query ev = false) evs →
  filter (λ ev, is_store_query ev) evs = [].
Proof.
  induction 1 as [|ev evs Hev _ IH]; [done|].
  rewrite filter_cons, decide_False by (rewrite Hev; intros []). done.
Qed.

Lemma field_queries_store (record_ids : list Z) (answers : list (list string)) :
  Forall (λ ev, is_store_query ev = true) (field_queries record_ids answers).
Proof.
  revert answers. induction record_ids as [|r rest IH]; intros [|a answers];
    try constructor; [done|apply IH].
Qed.

(** X4: synchronize asks the record store for field 035__a of each record id
    of its list, once, in the order of the list, and for nothing else; the
    payload it hands to the emitter is that of the updates of the candidates
    these answers give. *)
Theorem synchronize_field_queries {W : Type} `{!Collaborators W}
    (record_ids : list Z) (authority_ids : gmap string string)
    (dest_xml : string) (w : W) :
  ∃ answers s1,
    length answers = length record_ids
    ∧ filter (λ ev, is_store_query ev)
             (synchronize record_ids authority_ids dest_xml (w, [])).2.2
      = field_queries record_ids answers
    ∧ synchronize record_ids authority_ids dest_xml (w, [])
      = emit (serialize (matched_updates authority_ids
                           (candidates_from record_ids answers))) dest_xml s1
    ∧ s1.2 = field_queries record_ids answers.
Proof.
  destruct (select_candidates_queries record_ids (w, []))
    as (answers & s1 & Hlen & Hsel & Htr).
  exists answers, s1. split; [done|].
  rewrite (synchronize_run _ _ _ _ _ _ Hsel). split; [|done].
  destruct (emit_no_store_query
              (serialize (matched_updates authority_ids
                            (candidates_from record_ids answers))) dest_xml s1)
    as (evs & -> & Hnone).
  rewrite Htr. cbn [snd app]. rewrite filter_app.
  rewrite (filter_store_queries_all _ (field_queries_store _ _)).
  by rewrite (filter_store_queries_none _ Hnone), app_nil_r.
Qed.

(** X5: when the mapping has no key CERN-None, the records for which
    get_ccid returns None give no fragment: the payload of the loop of
    synchronize is that of the candidates with a key, and it has at most one
    fragment per such candidate. *)
Theorem build_output_keyless_dropped {W : Type} `{!Collaborators W}
    (record_ids : list Z) (authority_ids : gmap string string) (s : state W) :
  authority_ids !! "CERN-None" = None →
  ∃ candidates s',
    select_candidates record_ids s = (Ret candidates, s')
    ∧ build_output authority_ids "" record_ids s
      = (Ret (serialize (matched_updates authority_ids (with_key candidates))), s')
    ∧ (length (matched_updates authority_ids (with_key candidates))
       ≤ length (with_key candidates))%nat.
Proof.
  intros Hnone.
  destruct (select_candidates_returns record_ids s) as (cs & s' & Hsel & _).
  destruct (matched_updates_with_key authority_ids cs Hnone) as [Heq Hlen].
  exists cs, s'. split; [done|]. rewrite <- Heq. split; [|done].
  apply (build_output_select _ _ "" _ _ _ Hsel).
Qed.

(** X5 on the sample world: of the three records only 2108556 and 2148049
    have a key, and one fragment is built. *)
Lemma build_output_keyless_dropped_witness :
  ∃ candidates s',
    select_candidates [2108556; 2148049; 2148050] (Sample.world, [])
    = (Ret candidates, s')
    ∧ build_output Sample.authority_ids "" [2108556; 2148049; 2148050]
        (Sample.world, [])
      = (Ret (serialize (matched_updates Sample.authority_ids (with_key candidates))), s')
    ∧ (length (matched_updates Sample.authority_ids (with_key candidates))
       ≤ length (with_key candidates))%nat.
Proof.
  apply (build_output_keyless_dropped [2108556; 2148049; 2148050]
           Sample.authority_ids (Sample.world, [])).
  reflexivity.
Defined.

(** The updates are the candidates found in the mapping, each with the value
    found. *)
Lemma elem_of_matched_updates (authority_ids : gmap string string)
    (candidates : list (Z * option string)) (record_id : Z) (inspire_id : string) :
  (record_id, inspire_id) ∈ matched_updates authority_ids candidates
  ↔ ∃ cern_id, (record_id, cern_id) ∈ candidates
               ∧ authority_ids !! ("CERN-" +:+ PyStr.format_opt cern_id)
                 = Some inspire_id.
Proof.
  unfold matched_updates. rewrite list_elem_of_omap. split.
  - intros ([rid cern_id] & Hin & Hlookup). unfold lookup_candidate in Hlookup.
    cbn [fst snd] in Hlookup.
    destruct (authority_ids !! _) as [i|] eqn:Hi; [|done].
    injection Hlookup as -> ->. by exists cern_id.
  - intros (cern_id & Hin & Hlookup). exists (record_id, cern_id).
    split; [done|]. unfold lookup_candidate. cbn [fst snd]. by rewrite Hlookup.
Qed.

(** X6: the fragments of the payload of synchronize are exactly the joins of
    the candidates with the mapping: a record id is paired with an INSPIRE
    id in the payload if and only if the record is a candidate whose key,
    prefixed with CERN-, is a key of the mapping with that INSPIRE id as its
    value. *)
Theorem build_output_join {W : Type} `{!Collaborators W}
    (record_ids : list Z) (authority_ids : gmap string string) (s : state W) :
  ∃ candidates s' updates,
    select_candidates record_ids s = (Ret candidates, s')
    ∧ build_output authority_ids "" record_ids s = (Ret (serialize updates), s')
    ∧ ∀ record_id inspire_id,
        (record_id, inspire_id) ∈ updates
        ↔ ∃ cern_id, (record_id, cern_id) ∈ candidates
                     ∧ authority_ids !! ("CERN-" +:+ PyStr.format_opt cern_id)
                       = Some inspire_id.
Proof.
  destruct (select_candidates_returns record_ids s) as (cs & s' & Hsel & _).
  exists cs, s', (matched_updates authority_ids cs). split; [done|].
  split; [apply (build_output_select _ _ "" _ _ _ Hsel)|].
  apply elem_of_matched_updates.
Qed.

Section EmitPaths.
Context {W : Type} `{!Collaborators W}.

(** The emitter once the payload is written and the file closed: the report
    of the write, then the submission. *)
Lemma emit_written (output dest_xml : string) (w w1 w2 w3 : W) (tr : list event) :
  output ≠ "" →
  file_open dest_xml w = (Ret tt, w1) →
  file_write dest_xml output w1 = (Ret tt, w2) →
  file_close dest_xml w2 = (Ret tt, w3) →
  emit output dest_xml (w, tr)
  = let written := tr ++ [FileOpen dest_xml (Ret tt);
                          FileWrite dest_xml output (Ret tt);
                          FileClose dest_xml (Ret tt); WRITTEN dest_xml] in
    match task_low_level_submission (bibupload_args dest_xml) w3 with
    | (Ret task_id, w4) =>
        (Ret tt, (w4, written ++ [TaskSubmit (bibupload_args dest_xml) (Ret task_id);
                                  SUBMITTED task_id]))
    | (Raise e, w4) =>
        if is_EnvironmentError e then
          (Ret tt, (w4, written ++ [TaskSubmit (bibupload_args dest_xml) (Raise e);
                                    WRITE_FAILED dest_xml e]))
        else
          (Raise e, (w4, written ++ [TaskSubmit (bibupload_args dest_xml) (Raise e)]))
    end.
Proof.
  intros Houtput Hopen Hwrite Hclose. unfold emit, with_open.
  rewrite bool_decide_eq_true_2 by done. unfold_M. cbn [fst snd].
  rewrite Hopen. cbn [fst snd]. rewrite Hwrite. cbn [fst snd].
  rewrite Hclose. cbn [fst snd].
  destruct (task_low_level_submission (bibupload_args dest_xml) w3) as [[task_id|e] w4];
    cbn [fst snd]; [|destruct (is_EnvironmentError e)];
    cbn [fst snd]; rewrite <- ?app_assoc; reflexivity.
Qed.

End EmitPaths.

(** X7: when the payload is not empty and the open, the write and the close
    of the updates file return, synchronize's emitter makes exactly these
    calls, in this order: open, write of the whole payload, close, the report
    of the write, one submission of the bibupload task (append mode, for
    bibauthority-people, priority -1, named inspire-authority-ids-
    synchronizer, with the path of the file), and the report of the task id;
    it then returns. *)
Theorem emit_submits_after_write {W : Type} `{!Collaborators W}
    (output dest_xml : string) (w w1 w2 w3 w4 : W) (tr : list event) (task_id : Z) :
  output ≠ "" →
  file_open dest_xml w = (Ret tt, w1) →
  file_write dest_xml output w1 = (Ret tt, w2) →
  file_close dest_xml w2 = (Ret tt, w3) →
  task_low_level_submission
    ["bibupload"; "bibauthority-people"; "--append"; dest_xml;
     "-P"; "-1"; "-N"; "inspire-authority-ids-synchronizer"] w3
  = (Ret task_id, w4) →
  emit output dest_xml (w, tr)
  = (Ret tt,
     (w4, tr ++ [FileOpen dest_xml (Ret tt);
                 FileWrite dest_xml output (Ret tt);
                 FileClose dest_xml (Ret tt);
                 WRITTEN dest_xml;
                 TaskSubmit ["bibupload"; "bibauthority-people"; "--append"; dest_xml;
                             "-P"; "-1"; "-N"; "inspire-authority-ids-synchronizer"]
                            (Ret task_id);
                 SUBMITTED task_id])).
Proof.
  intros Houtput Hopen Hwrite Hclose Hsubmit.
  rewrite (emit_written _ _ _ _ _ _ _ Houtput Hopen Hwrite Hclose).
  cbv zeta. unfold bibupload_args. rewrite Hsubmit. by rewrite <- app_assoc.
Qed.

(** X7 in the scripted world where every call returns. *)
Lemma emit_submits_after_write_witness :
  emit "<record/>" "/tmp/cds-records-updates.xml" (Script.fine, [])
  = (Ret tt,
     (Script.fine,
      [FileOpen "/tmp/cds-records-updates.xml" (Ret tt);
       FileWrite "/tmp/cds-records-updates.xml" "<record/>" (Ret tt);
       FileClose "/tmp/cds-records-updates.xml" (Ret tt);
       WRITTEN "/tmp/cds-records-updates.xml";
       TaskSubmit ["bibupload"; "bibauthority-people"; "--append";
                   "/tmp/cds-records-updates.xml";
                   "-P"; "-1"; "-N"; "inspire-authority-ids-synchronizer"] (Ret 7);
       SUBMITTED 7])).
Proof.
  apply (emit_submits_after_write "<record/>" "/tmp/cds-records-updates.xml"
           Script.fine Script.fine Script.fine Script.fine Script.fine [] 7);
    done.
Defined.

(** X8: an exception of the submission itself, raised after the payload was
    written and the file closed, is handled by the handler of the write: an
    IOError or OSError is reported as a failure to write the updates and the
    emitter returns normally, and an exception of any other class leaves the
    emitter unreported. In both cases the updates file stays written. *)
Theorem emit_submission_raises {W : Type} `{!Collaborators W}
    (output dest_xml : string) (w w1 w2 w3 w4 : W) (tr : list event) (e : exn) :
  output ≠ "" →
  file_open dest_xml w = (Ret tt, w1) →
  file_write dest_xml output w1 = (Ret tt, w2) →
  file_close dest_xml w2 = (Ret tt, w3) →
  task_low_level_submission (bibupload_args dest_xml) w3 = (Raise e, w4) →
  let written := tr ++ [FileOpen dest_xml (Ret tt);
                        FileWrite dest_xml output (Ret tt);
                        FileClose dest_xml (Ret tt); WRITTEN dest_xml;
                        TaskSubmit (bibupload_args dest_xml) (Raise e)] in
  emit output dest_xml (w, tr)
  = if is_EnvironmentError e
    then (Ret tt, (w4, written ++ [WRITE_FAILED dest_xml e]))
    else (Raise e, (w4, written)).
Proof.
  intros Houtput Hopen Hwrite Hclose Hsubmit written. subst written.
  rewrite (emit_written _ _ _ _ _ _ _ Houtput Hopen Hwrite Hclose).
  cbv zeta. rewrite Hsubmit.
  destruct (is_EnvironmentError e); by rewrite <- !app_assoc.
Qed.

(** X8 in two scripted worlds: the queue refuses the connection (an
    IOError), and the queue raises an exception of another class. *)
Lemma emit_submission_raises_witness :
  emit "<record/>" "/tmp/cds-records-updates.xml" (Script.queue_down, [])
  = (Ret tt,
     (Script.queue_down,
      [FileOpen "/tmp/cds-records-updates.xml" (Ret tt);
       FileWrite "/tmp/cds-records-updates.xml" "<record/>" (Ret tt);
       FileClose "/tmp/cds-records-updates.xml" (Ret tt);
       WRITTEN "/tmp/cds-records-updates.xml";
       TaskSubmit (bibupload_args "/tmp/cds-records-updates.xml")
                  (Raise (IOError "Connection refused"));
       WRITE_FAILED "/tmp/cds-records-updates.xml" (IOError "Connection refused")]))
  ∧ emit "<record/>" "/tmp/cds-records-updates.xml" (Script.queue_broken, [])
    = (Raise (OtherError "OperationalError" "server has gone away"),
       (Script.queue_broken,
        [FileOpen "/tmp/cds-records-updates.xml" (Ret tt);
         FileWrite "/tmp/cds-records-updates.xml" "<record/>" (Ret tt);
         FileClose "/tmp/cds-records-updates.xml" (Ret tt);
         WRITTEN "/tmp/cds-records-updates.xml";
         TaskSubmit (bibupload_args "/tmp/cds-records-updates.xml")
                    (Raise (OtherError "OperationalError" "server has gone away"))])).
Proof.
  split.
  - apply (emit_submission_raises "<record/>" "/tmp/cds-records-updates.xml"
             Script.queue_down Script.queue_down Script.queue_down Script.queue_down
             Script.queue_down [] (IOError "Connection refused")); done.
  - apply (emit_submission_raises "<record/>" "/tmp/cds-records-updates.xml"
             Script.queue_broken Script.queue_broken Script.queue_broken
             Script.queue_broken Script.queue_broken []
             (OtherError "OperationalError" "server has gone away")); done.
Defined.

Section SubmitOnce.
Context {W : Type} `{!Collaborators W}.

(** The steps of the write and the submission the emitter adds to the trace:
    either no submission, or the three steps of a write that went through
    followed by one submission. *)
Lemma emit_output_calls (output dest_xml : string) (s : state W) :
  ∃ evs, (emit output dest_xml s).2.2 = s.2 ++ evs
         ∧ (existsb is_submit evs = false
            ∨ ∃ r, filter (λ ev, is_output_call ev) evs
                   = [FileOpen dest_xml (Ret tt);
                      FileWrite dest_xml output (Ret tt);
                      FileClose dest_xml (Ret tt);
                      TaskSubmit (bibupload_args dest_xml) r]).
Proof.
  destruct s as [w tr]. unfold emit, with_open. case_bool_decide.
  2:{ eexists [_]. split; [reflexivity|]. by left. }
  unfold_M.
  run_call (file_open dest_xml); [|destruct (is_EnvironmentError _)].
  1: run_call (file_write dest_xml output); run_call (file_close dest_xml);
     try (run_call (task_low_level_submission (bibupload_args dest_xml)));
     try destruct (is_EnvironmentError _).
  all: cbn [fst snd]; rewrite <- ?app_assoc; cbn [app];
    eexists; (split; [reflexivity|]);
    first [by left | right; repeat destruct select unit; by eexists].
Qed.

End SubmitOnce.

Lemma filter_output_calls_none (evs : list event) :
  Forall (λ ev, is_store_query ev = true) evs →
  filter (λ ev, is_output_call ev) evs = [].
Proof.
  induction 1 as [|ev evs Hev _ IH]; [done|].
  rewrite filter_cons, decide_False; [done|].
  destruct ev; try done; intros [].
Qed.

(** X9: a run of synchronize submits at most once, and only after the
    whole payload went into the updates file: either its trace holds no
    submission, or its steps of the write and submissions are exactly an
    open, a write of the whole payload and a close of the updates file that
    all returned, followed by one submission of the bibupload task for that
    file. *)
Theorem synchronize_submits_once {W : Type} `{!Collaborators W}
    (record_ids : list Z) (authority_ids : gmap string string)
    (dest_xml : string) (w : W) :
  ∃ candidates s1,
    select_candidates record_ids (w, []) = (Ret candidates, s1)
    ∧ let payload := serialize (matched_updates authority_ids candidates) in
      let tr := (synchronize record_ids authority_ids dest_xml (w, [])).2.2 in
      existsb is_submit tr = false
      ∨ ∃ r, filter (λ ev, is_output_call ev) tr
             = [FileOpen dest_xml (Ret tt);
                FileWrite dest_xml payload (Ret tt);
                FileClose dest_xml (Ret tt);
                TaskSubmit (bibupload_args dest_xml) r].
Proof.
  destruct (select_candidates_returns record_ids (w, [])) as (cs & s1 & Hsel & _).
  destruct (select_candidates_trace _ _ _ _ Hsel) as (evs0 & Htr & Hq).
  exists cs, s1. split; [done|]. intros payload tr. subst tr.
  rewrite (synchronize_run _ _ _ _ _ _ Hsel). fold payload.
  destruct (emit_output_calls payload dest_xml s1) as (evs & -> & [Hnone|[r Hcalls]]).
  - left. rewrite Htr. cbn [snd app]. rewrite existsb_app, Hnone.
    by rewrite (store_queries_only _ _ store_query_not_submit Hq).
  - right. exists r. rewrite Htr. cbn [snd app].
    by rewrite filter_app, (filter_output_calls_none _ Hq).
Qed.


(** ** More on the dump fetcher *)

(** Proves that a list of names is a subsequence of another. *)
Ltac solve_sublist :=
  solve [repeat first [apply sublist_nil | apply sublist_skip | apply sublist_cons]].

(** Every event of the fetcher is a call on its two arguments or a report
    to stderr. *)
Lemma get_inspire_dump_fetches {W : Type} `{!Collaborators W}
    (src dest_gz_tmp : string) (w : W) :
  Forall (fetches src dest_gz_tmp) (get_inspire_dump src dest_gz_tmp (w, [])).2.2.
Proof.
  unfold get_inspire_dump, read_copy, remove_copy. unfold_M.
  run_call (urlretrieve src dest_gz_tmp); [|destruct (is_IOError _)].
  1: run_call (gzip_open dest_gz_tmp); [|destruct (is_IOError _)].
  1: run_call (gzip_read dest_gz_tmp); [|destruct (is_IOError _)].
  1: run_call (gzip_close dest_gz_tmp); [|destruct (is_IOError _)].
  all: try (run_call (os_remove dest_gz_tmp); [|destruct (is_OSError _)]).
  all: cbn [fst snd app]; by repeat constructor.
Qed.

(** X10: get_inspire_dump makes each of its five calls at most once and in
    one order -- the copy, then the open, the read and the close of the copy,
    then the removal -- whatever each call returns or raises; every call is
    on src and dest_gz_tmp, and every report goes to stderr. *)
Theorem get_inspire_dump_calls {W : Type} `{!Collaborators W}
    (src dest_gz_tmp : string) (w : W) :
  let tr := (get_inspire_dump src dest_gz_tmp (w, [])).2.2 in
  omap call_name tr
    `sublist_of` ["urllib.urlretrieve"; "gzip.open"; "f.read"; "f.close"; "os.remove"]
  ∧ Forall (fetches src dest_gz_tmp) tr.
Proof.
  intros tr. subst tr. split; [|apply get_inspire_dump_fetches].
  unfold get_inspire_dump, read_copy, remove_copy. unfold_M.
  run_call (urlretrieve src dest_gz_tmp); [|destruct (is_IOError _)].
  1: run_call (gzip_open dest_gz_tmp); [|destruct (is_IOError _)].
  1: run_call (gzip_read dest_gz_tmp); [|destruct (is_IOError _)].
  1: run_call (gzip_close dest_gz_tmp); [|destruct (is_IOError _)].
  all: try (run_call (os_remove dest_gz_tmp); [|destruct (is_OSError _)]).
  all: cbn [fst snd app omap list_omap call_name]; solve_sublist.
Qed.

Section FetchPaths.
Context {W : Type} `{!Collaborators W}.

(** The read of the copy when the open and the read return. *)
Lemma read_copy_read (dest_gz_tmp : string) (w w1 w2 : W) (tr : list event)
    (xml : string) :
  gzip_open dest_gz_tmp w = (Ret tt, w1) →
  gzip_read dest_gz_tmp w1 = (Ret xml, w2) →
  read_copy dest_gz_tmp (w, tr)
  = let read := tr ++ [GzipOpen dest_gz_tmp (Ret tt); GzipRead dest_gz_tmp (Ret xml)] in
    match gzip_close dest_gz_tmp w2 with
    | (Ret _, w3) => (Ret (Some xml), (w3, read ++ [GzipClose dest_gz_tmp (Ret tt)]))
    | (Raise e, w3) =>
        if is_IOError e then
          (Ret (Some xml), (w3, read ++ [GzipClose dest_gz_tmp (Raise e);
                                         UNZIP_FAILED dest_gz_tmp e]))
        else (Raise e, (w3, read ++ [GzipClose dest_gz_tmp (Raise e)]))
    end.
Proof.
  intros Hopen Hread. unfold read_copy. unfold_M. cbn [fst snd].
  rewrite Hopen. cbn [fst snd]. rewrite Hread. cbn [fst snd].
  destruct (gzip_close dest_gz_tmp w2) as [[[]|e] w3]; cbn [fst snd];
    [|destruct (is_IOError e)]; cbn [fst snd]; rewrite <- ?app_assoc; reflexivity.
Qed.

(** The read of the copy when the read raises. *)
Lemma read_copy_read_raises (dest_gz_tmp : string) (w w1 w2 : W) (tr : list event)
    (e : exn) :
  gzip_open dest_gz_tmp w = (Ret tt, w1) →
  gzip_read dest_gz_tmp w1 = (Raise e, w2) →
  read_copy dest_gz_tmp (w, tr)
  = let read := tr ++ [GzipOpen dest_gz_tmp (Ret tt); GzipRead dest_gz_tmp (Raise e)] in
    if is_IOError e then (Ret None, (w2, read ++ [UNZIP_FAILED dest_gz_tmp e]))
    else (Raise e, (w2, read)).
Proof.
  intros Hopen Hread. unfold read_copy. unfold_M. cbn [fst snd].
  rewrite Hopen. cbn [fst snd]. rewrite Hread. cbn [fst snd].
  destruct (is_IOError e); cbn [fst snd]; rewrite <- ?app_assoc; reflexivity.
Qed.

End FetchPaths.

(** X11: when the copy is read in full and only its close raises an IOError,
    get_inspire_dump reports a failure to unzip and still returns the
    content it read, after removing the copy. *)
Theorem get_inspire_dump_close_raises {W : Type} `{!Collaborators W}
    (src dest_gz_tmp : string) (w w1 w2 w3 w4 w5 : W) (xml msg : string) :
  urlretrieve src dest_gz_tmp w = (Ret tt, w1) →
  gzip_open dest_gz_tmp w1 = (Ret tt, w2) →
  gzip_read dest_gz_tmp w2 = (Ret xml, w3) →
  gzip_close dest_gz_tmp w3 = (Raise (IOError msg), w4) →
  os_remove dest_gz_tmp w4 = (Ret tt, w5) →
  get_inspire_dump src dest_gz_tmp (w, [])
  = (Ret (Some xml),
     (w5, [Urlretrieve src dest_gz_tmp (Ret tt);
           GzipOpen dest_gz_tmp (Ret tt);
           GzipRead dest_gz_tmp (Ret xml);
           GzipClose dest_gz_tmp (Raise (IOError msg));
           UNZIP_FAILED dest_gz_tmp (IOError msg);
           OsRemove dest_gz_tmp (Ret tt)])).
Proof.
  intros Hcopy Hopen Hread Hclose Hremove.
  rewrite (get_inspire_dump_copied src dest_gz_tmp w w1 [] (Some xml)
             (w4, [Urlretrieve src dest_gz_tmp (Ret tt);
                   GzipOpen dest_gz_tmp (Ret tt);
                   GzipRead dest_gz_tmp (Ret xml);
                   GzipClose dest_gz_tmp (Raise (IOError msg));
                   UNZIP_FAILED dest_gz_tmp (IOError msg)]) Hcopy).
  - unfold remove_copy. unfold_M. cbn [fst snd]. by rewrite Hremove.
  - rewrite (read_copy_read _ _ _ _ _ _ Hopen Hread). cbv zeta.
    by rewrite Hclose.
Qed.

(** X11 in the scripted world whose close raises. *)
Lemma get_inspire_dump_close_raises_witness :
  (get_inspire_dump SYNC_URL_INSPIRE_RECORDS_SRC "/tmp/HepNames-records.xml.gz"
     (Script.close_fails, [])).1
  = Ret (Some Sample.dump_text).
Proof.
  by rewrite (get_inspire_dump_close_raises SYNC_URL_INSPIRE_RECORDS_SRC
                "/tmp/HepNames-records.xml.gz" Script.close_fails Script.close_fails
                Script.close_fails Script.close_fails Script.close_fails
                Script.close_fails Sample.dump_text "Input/output error").
Defined.

(** X12: when the read of the copy raises an exception that is not an
    IOError, get_inspire_dump lets it through to its caller at once: it
    writes no report and does not attempt to remove the copy, which stays on
    disk. *)
Theorem get_inspire_dump_read_escapes {W : Type} `{!Collaborators W}
    (src dest_gz_tmp : string) (w w1 w2 w3 : W) (e : exn) :
  urlretrieve src dest_gz_tmp w = (Ret tt, w1) →
  gzip_open dest_gz_tmp w1 = (Ret tt, w2) →
  gzip_read dest_gz_tmp w2 = (Raise e, w3) →
  is_IOError e = false →
  get_inspire_dump src dest_gz_tmp (w, [])
  = (Raise e,
     (w3, [Urlretrieve src dest_gz_tmp (Ret tt);
           GzipOpen dest_gz_tmp (Ret tt);
           GzipRead dest_gz_tmp (Raise e)])).
Proof.
  intros Hcopy Hopen Hread He.
  unfold get_inspire_dump. unfold mbind at 1. unfold M_bind, bindM, attempt, call.
  cbn [fst snd app]. rewrite Hcopy. unfold mbind at 1. unfold M_bind, bindM.
  rewrite (read_copy_read_raises _ _ _ _ _ _ Hopen Hread). cbv zeta.
  by rewrite He.
Qed.

(** X12 in the scripted world whose read raises the error of zlib. *)
Lemma get_inspire_dump_read_escapes_witness :
  let run := get_inspire_dump SYNC_URL_INSPIRE_RECORDS_SRC
               "/tmp/HepNames-records.xml.gz" (Script.damaged, []) in
  run.1 = Raise (OtherError "zlib.error" "invalid block type")
  ∧ existsb (is_remove "/tmp/HepNames-records.xml.gz") run.2.2 = false.
Proof.
  cbv zeta.
  by rewrite (get_inspire_dump_read_escapes SYNC_URL_INSPIRE_RECORDS_SRC
                "/tmp/HepNames-records.xml.gz" Script.damaged Script.damaged
                Script.damaged Script.damaged
                (OtherError "zlib.error" "invalid block type")).
Defined.


(** ** More on the traversal of the parser *)

(** X13: a record with no CERN datafield that has an a subfield, or with no
    INSPIRE datafield that has one, writes nothing into the mapping. *)
Theorem add_record_one_namespace (authority_ids : gmap string string) (record : node) :
  filter (λ d, inspire_tagged d && has_subfield_a d)
         (Etree.xpath_datafield_035 record) = []
  ∨ filter (λ d, cern_tagged d && has_subfield_a d)
           (Etree.xpath_datafield_035 record) = [] →
  add_record authority_ids record = authority_ids.
Proof.
  intros Hnone. apply add_record_falsy. rewrite scan_record_last. cbn [fst snd].
  destruct Hnone as [-> | ->]; cbn; [done|]. by rewrite andb_false_r.
Qed.

(** X13 on the first record of the sample dump, which has an INSPIRE id
    only. *)
Lemma add_record_one_namespace_witness :
  add_record Sample.authority_ids
    (Sample.record [Sample.datafield [Sample.subfield "9" "INSPIRE";
                                      Sample.subfield "a" "INSPIRE-00440376"]])
  = Sample.authority_ids.
Proof.
  apply (add_record_one_namespace Sample.authority_ids
           (Sample.record [Sample.datafield [Sample.subfield "9" "INSPIRE";
                                             Sample.subfield "a" "INSPIRE-00440376"]])).
  right. reflexivity.
Defined.

(** The datafields of tag 035 of a record, by its children. *)
Lemma xpath_datafield_035_children (tag : string) (attrib : list (string * string))
    (text : option string) (children : list node) (tail : option string) :
  Etree.xpath_datafield_035 (Element tag attrib text children tail)
  = filter (λ c, is_datafield_035 c) children.
Proof. reflexivity. Qed.

(** X14: the parser looks at nothing of a record but its children that are
    datafields of tag 035: the tag, the attributes and the text of the
    record element do not matter, and a child that is a comment, an element
    of another name or a datafield of another tag can be taken out without
    changing what the record writes into the mapping. *)
Theorem add_record_ignores_other_children (authority_ids : gmap string string)
    (tag tag' : string) (attrib attrib' : list (string * string))
    (text text' tail tail' : option string)
    (before after : list node) (child : node) :
  is_datafield_035 child = false →
  add_record authority_ids (Element tag attrib text (before ++ child :: after) tail)
  = add_record authority_ids (Element tag' attrib' text' (before ++ after) tail').
Proof.
  intros Hchild. unfold add_record, scan_record.
  rewrite !xpath_datafield_035_children, !filter_app, filter_cons.
  rewrite decide_False; [done|]. rewrite Hchild. intros [].
Qed.

(** X14 on the cluttered record: without its controlfield it writes what
    the second record of the sample dump writes. *)
Lemma add_record_ignores_other_children_witness :
  add_record ∅ Sample.cluttered_record = Sample.authority_ids.
Proof.
  etrans.
  - exact (add_record_ignores_other_children ∅ "entry" "record" [("id", "2")] []
             (Some " ") None None None
             [Comment (Some " Ellis, Jonathan R. ") None]
             [Sample.datafield [Sample.subfield "9" "CERN";
                                Sample.subfield "a" "CERN-389900"];
              Element "datafield" [("tag", "100"); ("ind1", " "); ("ind2", " ")] None
                      [Sample.subfield "9" "INSPIRE";
                       Sample.subfield "a" "Ellis, Jonathan R."] None;
              Sample.datafield [Sample.subfield "9" "INSPIRE";
                                Sample.subfield "a" "INSPIRE-00146525"]]
             (Element "controlfield" [("tag", "001")] (Some "1010819") [] None)
             eq_refl).
  - reflexivity.
Defined.

Lemma write_entry_size (authority_ids : gmap string string) (record : node) :
  (size (write_entry authority_ids record)
   ≤ size authority_ids + (if has_entry record then 1 else 0))%nat.
Proof.
  unfold write_entry, has_entry.
  destruct (record_entry record) as [[k v]|]; [|lia].
  rewrite map_size_insert. destruct (authority_ids !! k); cbn; lia.
Qed.

Lemma write_entries_size (records : list node) (authority_ids : gmap string string) :
  (size (fold_left write_entry records authority_ids)
   ≤ size authority_ids + length (filter (λ r, has_entry r) records))%nat.
Proof.
  revert authority_ids.
  induction records as [|record records IH]; intros m; [cbn; lia|].
  cbn [fold_left]. etrans; [apply IH|].
  pose proof (write_entry_size m record) as Hsize.
  rewrite filter_cons. destruct (has_entry record).
  - rewrite decide_True by exact I. cbn [length]. lia.
  - rewrite decide_False by (intros []). lia.
Qed.

(** X15: the mapping parse_inspire_xml builds has at most one entry per
    record that writes one, hence at most as many entries as the root has
    children; it has fewer when two records write the same key. *)
Theorem collect_authority_ids_size (root : node) :
  (size (collect_authority_ids root)
   ≤ length (filter (λ r, has_entry r) (Etree.children root)))%nat
  ∧ (length (filter (λ r, has_entry r) (Etree.children root))
     ≤ length (Etree.children root))%nat.
Proof.
  split.
  - rewrite collect_authority_ids_entries.
    pose proof (write_entries_size (Etree.children root) ∅) as Hsize.
    rewrite map_size_empty in Hsize. lia.
  - apply length_filter.
Qed.


(** ** More on the orchestrator *)

Section RunPaths.
Context {W : Type} `{!Collaborators W}.

(** The run once the fetcher has returned: the parser and what follows it,
    from the state the fetcher left. *)
Lemma run_fetched (url tmp_dir : string) (s s1 : state W) (xml : option string) :
  get_inspire_dump url
    (os_path_join tmp_dir SYNC_LOCAL_INSPIRE_RECORDS_FILE_NAME) s = (Ret xml, s1) →
  bst_inspire_authority_ids_synchronizer url tmp_dir s
  = match etree_fromstring xml with
    | Ret root =>
        if bool_decide (collect_authority_ids root ≠ ∅) then
          let '(record_ids, w2) := perform_request_search "CERN People" s1.1 in
          let s2 := (w2, s1.2 ++ [PerformRequestSearch "CERN People" record_ids;
                                  REQUESTED record_ids]) in
          if Etree.nonempty record_ids then
            synchronize record_ids (collect_authority_ids root)
              (os_path_join tmp_dir SYNC_LOCAL_CDS_RECORDS_UPDATES_FILE_NAME) s2
          else (Ret tt, s2)
        else (Ret tt, s1)
    | Raise e =>
        if is_parse_error e then (Ret tt, (s1.1, s1.2 ++ [PARSE_FAILED e]))
        else (Raise e, s1)
    end.
Proof.
  intros Hfetch. unfold bst_inspire_authority_ids_synchronizer.
  unfold mbind at 1. unfold M_bind, bindM. rewrite Hfetch.
  unfold parse_inspire_xml, get_record_ids. unfold_M.
  destruct (etree_fromstring xml) as [root|e]; [|by destruct (is_parse_error e)].
  case_bool_decide; [|done]. cbn [fst snd].
  destruct (perform_request_search "CERN People" s1.1) as [record_ids w2].
  cbn [fst snd]. rewrite <- app_assoc. cbn [app].
  by destruct record_ids.
Qed.

End RunPaths.

(** X16: when the fetcher returns None (the copy or the read of the copy
    raised an IOError), the orchestrator still hands None to the parser,
    which reports a second failure; the run then ends normally, with no query
    of the record store, nothing written and nothing submitted. *)
Theorem run_without_dump {W : Type} `{!Collaborators W}
    (url tmp_dir : string) (w : W) (s1 : state W) :
  get_inspire_dump url
    (os_path_join tmp_dir SYNC_LOCAL_INSPIRE_RECORDS_FILE_NAME) (w, [])
  = (Ret None, s1) →
  bst_inspire_authority_ids_synchronizer url tmp_dir (w, [])
  = (Ret tt, (s1.1, s1.2 ++ [PARSE_FAILED (ValueError "can only parse strings")]))
  ∧ Forall (fetches url (os_path_join tmp_dir SYNC_LOCAL_INSPIRE_RECORDS_FILE_NAME))
           s1.2.
Proof.
  intros Hfetch. split; [by rewrite (run_fetched _ _ _ _ _ Hfetch)|].
  pose proof (get_inspire_dump_fetches url
                (os_path_join tmp_dir SYNC_LOCAL_INSPIRE_RECORDS_FILE_NAME) w)
    as Hcalls.
  by rewrite Hfetch in Hcalls.
Qed.

(** X16 in the scripted world without a network: two reports, no other
    call than the copy. *)
Lemma run_without_dump_witness :
  bst_inspire_authority_ids_synchronizer SYNC_URL_INSPIRE_RECORDS_SRC "/tmp"
    (Script.offline, [])
  = (Ret tt,
     (Script.offline,
      [Urlretrieve SYNC_URL_INSPIRE_RECORDS_SRC "/tmp/HepNames-records.xml.gz"
         (Raise (IOError "Name or service not known"));
       WriteMessage
         ("Error: failed to copy '" +:+ SYNC_URL_INSPIRE_RECORDS_SRC
          +:+ "' to '/tmp/HepNames-records.xml.gz'. (Name or service not known)")
         Stderr;
       PARSE_FAILED (ValueError "can only parse strings")])).
Proof.
  apply (run_without_dump SYNC_URL_INSPIRE_RECORDS_SRC "/tmp" Script.offline
           (Script.offline,
            [Urlretrieve SYNC_URL_INSPIRE_RECORDS_SRC "/tmp/HepNames-records.xml.gz"
               (Raise (IOError "Name or service not known"));
             WriteMessage
               ("Error: failed to copy '" +:+ SYNC_URL_INSPIRE_RECORDS_SRC
                +:+ "' to '/tmp/HepNames-records.xml.gz'. (Name or service not known)")
               Stderr])).
  reflexivity.
Defined.

(** X17: when the dump gives a mapping that is not empty and the search of
    the collection returns no record id, the run reports that 0 record ids
    have been requested and ends: synchronize is not called, so no field is
    read, nothing is written or submitted, and the report that no updates
    were found is not made either. *)
Theorem run_without_records {W : Type} `{!Collaborators W}
    (url tmp_dir : string) (w w2 : W) (s1 : state W) (xml : option string)
    (root : node) :
  get_inspire_dump url
    (os_path_join tmp_dir SYNC_LOCAL_INSPIRE_RECORDS_FILE_NAME) (w, [])
  = (Ret xml, s1) →
  etree_fromstring xml = Ret root →
  collect_authority_ids root ≠ ∅ →
  perform_request_search "CERN People" s1.1 = ([], w2) →
  bst_inspire_authority_ids_synchronizer url tmp_dir (w, [])
  = (Ret tt,
     (w2, s1.2 ++ [PerformRequestSearch "CERN People" [];
                   WriteMessage "Info: 0 record ids have been requested" NoStream])).
Proof.
  intros Hfetch Hparse Hmapping Hsearch.
  rewrite (run_fetched _ _ _ _ _ Hfetch), Hparse.
  rewrite bool_decide_eq_true_2 by done. by rewrite Hsearch.
Qed.

(** X17 in the scripted world with an empty collection. *)
Lemma run_without_records_witness :
  (bst_inspire_authority_ids_synchronizer SYNC_URL_INSPIRE_RECORDS_SRC "/tmp"
     (Script.nobody, [])).2.2
  = [Urlretrieve SYNC_URL_INSPIRE_RECORDS_SRC "/tmp/HepNames-records.xml.gz" (Ret tt);
     GzipOpen "/tmp/HepNames-records.xml.gz" (Ret tt);
     GzipRead "/tmp/HepNames-records.xml.gz" (Ret Sample.dump_text);
     GzipClose "/tmp/HepNames-records.xml.gz" (Ret tt);
     OsRemove "/tmp/HepNames-records.xml.gz" (Ret tt);
     PerformRequestSearch "CERN People" [];
     WriteMessage "Info: 0 record ids have been requested" NoStream].
Proof.
  rewrite (run_without_records SYNC_URL_INSPIRE_RECORDS_SRC "/tmp"
             Script.nobody Script.nobody
             (Script.nobody,
              [Urlretrieve SYNC_URL_INSPIRE_RECORDS_SRC "/tmp/HepNames-records.xml.gz"
                 (Ret tt);
               GzipOpen "/tmp/HepNames-records.xml.gz" (Ret tt);
               GzipRead "/tmp/HepNames-records.xml.gz" (Ret Sample.dump_text);
               GzipClose "/tmp/HepNames-records.xml.gz" (Ret tt);
               OsRemove "/tmp/HepNames-records.xml.gz" (Ret tt)])
             (Some Sample.dump_text) Sample.dump); try reflexivity.
  by apply (bool_decide_unpack _).
Defined.

(** X18: when the dump is well formed and none of its records writes an
    entry, the mapping is empty and the run ends where the parser returned:
    without a report, without a query of the record store, with nothing
    written or submitted. *)
Theorem run_with_empty_mapping {W : Type} `{!Collaborators W}
    (url tmp_dir : string) (w : W) (s1 : state W) (xml : option string) (root : node) :
  get_inspire_dump url
    (os_path_join tmp_dir SYNC_LOCAL_INSPIRE_RECORDS_FILE_NAME) (w, [])
  = (Ret xml, s1) →
  etree_fromstring xml = Ret root →
  (∀ record, record ∈ Etree.children root → record_entry record = None) →
  bst_inspire_authority_ids_synchronizer url tmp_dir (w, []) = (Ret tt, s1).
Proof.
  intros Hfetch Hparse Hnone.
  rewrite (run_fetched _ _ _ _ _ Hfetch), Hparse.
  rewrite collect_authority_ids_entries, write_entries_none by done.
  by rewrite bool_decide_eq_false_2 by (by intros []).
Qed.

(** X18 in the scripted world whose dump is the empty record. *)
Lemma run_with_empty_mapping_witness :
  (bst_inspire_authority_ids_synchronizer SYNC_URL_INSPIRE_RECORDS_SRC "/tmp"
     (Script.empty_dump, [])).2.2
  = [Urlretrieve SYNC_URL_INSPIRE_RECORDS_SRC "/tmp/HepNames-records.xml.gz" (Ret tt);
     GzipOpen "/tmp/HepNames-records.xml.gz" (Ret tt);
     GzipRead "/tmp/HepNames-records.xml.gz" (Ret "<record></record>");
     GzipClose "/tmp/HepNames-records.xml.gz" (Ret tt);
     OsRemove "/tmp/HepNames-records.xml.gz" (Ret tt)].
Proof.
  rewrite (run_with_empty_mapping SYNC_URL_INSPIRE_RECORDS_SRC "/tmp"
             Script.empty_dump
             (Script.empty_dump,
              [Urlretrieve SYNC_URL_INSPIRE_RECORDS_SRC "/tmp/HepNames-records.xml.gz"
                 (Ret tt);
               GzipOpen "/tmp/HepNames-records.xml.gz" (Ret tt);
               GzipRead "/tmp/HepNames-records.xml.gz" (Ret "<record></record>");
               GzipClose "/tmp/HepNames-records.xml.gz" (Ret tt);
               OsRemove "/tmp/HepNames-records.xml.gz" (Ret tt)])
             (Some "<record></record>") (Sample.record [])); try reflexivity.
  intros record Hin. by apply elem_of_nil in Hin.
Defined.

Lemma fetches_no_store_query (src dest_gz_tmp : string) (evs : list event) :
  Forall (fetches src dest_gz_tmp) evs →
  Forall (λ ev, is_store_query ev = false) evs.
Proof.
  intros Hevs. eapply Forall_impl; [exact Hevs|]. by intros [].
Qed.

(** X19: a run of the tasklet queries the record store either not at all, or
    with one search of the collection CERN People followed by one read of
    field 035__a for each record id the search returned, in the order it
    returned them; it makes no other query. *)
Theorem run_store_queries {W : Type} `{!Collaborators W}
    (url tmp_dir : string) (w : W) :
  let tr := (bst_inspire_authority_ids_synchronizer url tmp_dir (w, [])).2.2 in
  filter (λ ev, is_store_query ev) tr = []
  ∨ ∃ record_ids answers,
      length answers = length record_ids
      ∧ filter (λ ev, is_store_query ev) tr
        = PerformRequestSearch "CERN People" record_ids
          :: field_queries record_ids answers.
Proof.
  intros tr. subst tr.
  set (dump := os_path_join tmp_dir SYNC_LOCAL_INSPIRE_RECORDS_FILE_NAME).
  pose proof (get_inspire_dump_fetches url dump w) as Hcalls.
  apply fetches_no_store_query, filter_store_queries_none in Hcalls.
  destruct (get_inspire_dump url dump (w, [])) as [[xml|e] s1] eqn:Hfetch;
    cbn [fst snd] in Hcalls.
  2:{ left. unfold bst_inspire_authority_ids_synchronizer.
      unfold mbind at 1. unfold M_bind, bindM. fold dump. by rewrite Hfetch. }
  rewrite (run_fetched _ _ _ _ _ Hfetch).
  destruct (etree_fromstring xml) as [root|e].
  2:{ left. destruct (is_parse_error e); cbn [fst snd]; [|done].
      by rewrite filter_app, Hcalls. }
  case_bool_decide; [|by left].
  destruct (perform_request_search "CERN People" s1.1) as [record_ids w2].
  right. exists record_ids.
  destruct record_ids as [|record_id record_ids]; cbn [Etree.nonempty].
  - exists []. split; [done|]. cbn [fst snd]. by rewrite filter_app, Hcalls.
  - match goal with |- context [synchronize ?rids ?m ?d ?s] =>
      destruct (select_candidates_queries rids s) as (answers & s3 & Hlen & Hsel & Htr);
      rewrite (synchronize_run rids m d s _ s3 Hsel);
      destruct (emit_no_store_query
                  (serialize (matched_updates m (candidates_from rids answers))) d s3)
        as (evs & -> & Hnone)
    end.
    exists answers. split; [done|]. rewrite Htr. cbn [snd].
    rewrite !filter_app, Hcalls, (filter_store_queries_none _ Hnone), app_nil_r.
    rewrite (filter_store_queries_all _ (field_queries_store _ _)).
    reflexivity.
Qed.


(** ** Exceptions that reach the caller *)

(** Takes the trace hypothesis [H] apart, one event at a time. *)
Ltac split_handled H :=
  repeat (apply Forall_cons in H as [? H]); cbn [handled] in *.

Section Handled.
Context {W : Type} `{!Collaborators W}.

(** The fetcher returns when every exception of its calls is of the class
    its handlers name. *)
Lemma get_inspire_dump_handled (src dest_gz_tmp : string) (s : state W) :
  ∃ evs, (get_inspire_dump src dest_gz_tmp s).2.2 = s.2 ++ evs
         ∧ (Forall (λ ev, handled ev = true) evs →
            ∃ xml, (get_inspire_dump src dest_gz_tmp s).1 = Ret xml).
Proof.
  destruct s as [w tr]. unfold get_inspire_dump, read_copy, remove_copy. unfold_M.
  run_call (urlretrieve src dest_gz_tmp);
    [|destruct (is_IOError _) eqn:?].
  1: run_call (gzip_open dest_gz_tmp); [|destruct (is_IOError _) eqn:?].
  1: run_call (gzip_read dest_gz_tmp); [|destruct (is_IOError _) eqn:?].
  1: run_call (gzip_close dest_gz_tmp); [|destruct (is_IOError _) eqn:?].
  all: try (run_call (os_remove dest_gz_tmp); [|destruct (is_OSError _) eqn:?]).
  all: cbn [fst snd]; rewrite <- ?app_assoc; cbn [app];
    eexists; (split; [reflexivity|]); intros Hh;
    first [by eexists | split_handled Hh; congruence].
Qed.

(** The emitter returns when every exception of its calls is an
    [EnvironmentError]. *)
Lemma emit_handled (output dest_xml : string) (s : state W) :
  ∃ evs, (emit output dest_xml s).2.2 = s.2 ++ evs
         ∧ (Forall (λ ev, handled ev = true) evs →
            (emit output dest_xml s).1 = Ret tt).
Proof.
  destruct s as [w tr]. unfold emit, with_open. case_bool_decide.
  2:{ eexists [_]. split; [reflexivity|]. done. }
  unfold_M.
  run_call (file_open dest_xml); [|destruct (is_EnvironmentError _) eqn:?].
  1: run_call (file_write dest_xml output); run_call (file_close dest_xml);
     try (run_call (task_low_level_submission (bibupload_args dest_xml)));
     try destruct (is_EnvironmentError _) eqn:?.
  all: cbn [fst snd]; rewrite <- ?app_assoc; cbn [app];
    eexists; (split; [reflexivity|]); intros Hh;
    first [done | split_handled Hh; congruence].
Qed.

(** What [etree.fromstring] raises is caught at line 134. *)
Lemma etree_fromstring_raises (xml_content : option string) (e : exn) :
  etree_fromstring xml_content = Raise e → is_parse_error e = true.
Proof.
  unfold etree_fromstring. destruct xml_content as [[|a content]|].
  - by intros [= <-].
  - destruct (xml_parse _); [done|]. by intros [= <-].
  - by intros [= <-].
Qed.

End Handled.

(** X20: the tasklet is fail-soft: when every exception raised by a call of
    a run is of the class the handler around that call names (IOError for
    the copy and for the open, read and close of the copy, OSError for the
    removal, IOError or OSError for the open, write and close of the updates
    file and for the submission), the run returns normally. *)
Theorem run_fail_soft {W : Type} `{!Collaborators W} (url tmp_dir : string) (w : W) :
  let run := bst_inspire_authority_ids_synchronizer url tmp_dir (w, []) in
  Forall (λ ev, handled ev = true) run.2.2 → run.1 = Ret tt.
Proof.
  intros run. subst run.
  set (dump := os_path_join tmp_dir SYNC_LOCAL_INSPIRE_RECORDS_FILE_NAME).
  destruct (get_inspire_dump_handled url dump (w, [])) as (evs0 & Htr0 & Hret0).
  destruct (get_inspire_dump url dump (w, [])) as [[xml|e] s1] eqn:Hfetch;
    cbn [fst snd app] in Htr0, Hret0.
  2:{ unfold bst_inspire_authority_ids_synchronizer.
      unfold mbind at 1. unfold M_bind, bindM. fold dump. rewrite Hfetch.
      cbn [fst snd]. rewrite Htr0. by intros [? [=]]%Hret0. }
  rewrite (run_fetched _ _ _ _ _ Hfetch).
  destruct (etree_fromstring xml) as [root|e] eqn:Hparse.
  2:{ by rewrite (etree_fromstring_raises _ _ Hparse). }
  case_bool_decide; [|done].
  destruct (perform_request_search "CERN People" s1.1) as [record_ids w2].
  destruct record_ids as [|record_id record_ids]; cbn [Etree.nonempty]; [done|].
  match goal with |- context [synchronize ?rids ?m ?d ?s] =>
    destruct (select_candidates_returns rids s) as (cs & s3 & Hsel & _);
    rewrite (synchronize_run rids m d s cs s3 Hsel);
    destruct (emit_handled (serialize (matched_updates m cs)) d s3)
      as (evs & -> & Hret)
  end.
  intros [_ Hevs]%Forall_app. by apply Hret.
Qed.

(** X20 in the scripted world where the close and the removal of the copy,
    the write and the close of the updates file all raise. *)
Lemma run_fail_soft_witness :
  (bst_inspire_authority_ids_synchronizer SYNC_URL_INSPIRE_RECORDS_SRC "/tmp"
     (Script.all_fail, [])).1 = Ret tt.
Proof.
  apply (run_fail_soft SYNC_URL_INSPIRE_RECORDS_SRC "/tmp" Script.all_fail).
  vm_compute. repeat constructor.
Defined.


(** X21: get_inspire_dump returns content only from a run in which it made
    all five of its calls: the copy and the open returned, the read returned
    that very content, and the close and the removal of the copy were both
    made before the return. *)
Theorem get_inspire_dump_content_read {W : Type} `{!Collaborators W}
    (src dest_gz_tmp : string) (w : W) (xml : string) :
  let run := get_inspire_dump src dest_gz_tmp (w, []) in
  run.1 = Ret (Some xml) →
  ∃ closed removed,
    filter (λ ev, is_call ev) run.2.2
    = [Urlretrieve src dest_gz_tmp (Ret tt);
       GzipOpen dest_gz_tmp (Ret tt);
       GzipRead dest_gz_tmp (Ret xml);
       GzipClose dest_gz_tmp closed;
       OsRemove dest_gz_tmp removed].
Proof.
  intros run. subst run. unfold get_inspire_dump, read_copy, remove_copy. unfold_M.
  run_call (urlretrieve src dest_gz_tmp); [|destruct (is_IOError _)].
  1: run_call (gzip_open dest_gz_tmp); [|destruct (is_IOError _)].
  1: run_call (gzip_read dest_gz_tmp); [|destruct (is_IOError _)].
  1: run_call (gzip_close dest_gz_tmp); [|destruct (is_IOError _)].
  all: try (run_call (os_remove dest_gz_tmp); [|destruct (is_OSError _)]).
  all: cbn [fst snd app]; intros Hrun; try discriminate Hrun.
  all: injection Hrun as ->; repeat destruct select unit; by eexists _, _.
Qed.

(** X21 in the sample world. *)
Lemma get_inspire_dump_content_read_witness :
  ∃ closed removed,
    filter (λ ev, is_call ev)
      (get_inspire_dump SYNC_URL_INSPIRE_RECORDS_SRC "/tmp/HepNames-records.xml.gz"
         (Sample.world, [])).2.2
    = [Urlretrieve SYNC_URL_INSPIRE_RECORDS_SRC "/tmp/HepNames-records.xml.gz" (Ret tt);
       GzipOpen "/tmp/HepNames-records.xml.gz" (Ret tt);
       GzipRead "/tmp/HepNames-records.xml.gz" (Ret Sample.dump_text);
       GzipClose "/tmp/HepNames-records.xml.gz" closed;
       OsRemove "/tmp/HepNames-records.xml.gz" removed].
Proof.
  apply (get_inspire_dump_content_read SYNC_URL_INSPIRE_RECORDS_SRC
           "/tmp/HepNames-records.xml.gz" Sample.world Sample.dump_text).
  reflexivity.
Defined.

(** A key is in the mapping after a run of records when it was there before
    or one of the records wrote it. *)
Lemma write_entries_keys (records : list node) (authority_ids : gmap string string)
    (k : string) :
  is_Some (fold_left write_entry records authority_ids !! k)
  ↔ is_Some (authority_ids !! k)
    ∨ ∃ record v, record ∈ records ∧ record_entry record = Some (k, v).
Proof.
  split.
  - intros [v [Hm|(record & Hin & Hentry)]%write_entries_origin]; [by left|].
    right. by exists record, v.
  - revert authority_ids.
    induction records as [|record records IH]; intros m.
    + intros [Hm|(record & v & Hin & _)]; [done|]. by apply elem_of_nil in Hin.
    + cbn [fold_left]. intros [Hm|(r & v & Hin & Hentry)]; apply IH.
      * left. unfold write_entry. destruct (record_entry record) as [[k' v']|]; [|done].
        destruct (decide (k' = k)) as [->|Hne].
        -- rewrite lookup_insert_eq. by eexists.
        -- by rewrite lookup_insert_ne.
      * apply elem_of_cons in Hin as [->|Hin].
        -- left. unfold write_entry. rewrite Hentry, lookup_insert_eq. by eexists.
        -- right. by exists r, v.
Qed.

(** X22: the keys of the mapping parse_inspire_xml builds are exactly the
    CERN ids of the records whose scan ends with two non-empty ids: no such
    record is left out of the mapping, and no other key gets in. *)
Theorem collect_authority_ids_keys (root : node) (cern_id : string) :
  is_Some (collect_authority_ids root !! cern_id)
  ↔ ∃ record inspire_id,
      record ∈ Etree.children root
      ∧ scan_record record = (Some inspire_id, Some cern_id)
      ∧ cern_id ≠ "" ∧ inspire_id ≠ "".
Proof.
  rewrite collect_authority_ids_entries, write_entries_keys, lookup_empty.
  split.
  - intros [[? [=]]|(record & v & Hin & Hentry)].
    exists record, v. split; [done|]. by apply record_entry_spec.
  - intros (record & v & Hin & Hentry). right. exists record, v.
    split; [done|]. by apply record_entry_spec.
Qed.
